(** * AI-Worker-Proxy: routing, provider fallback and the Cloudflare AI adapter

    A shallow embedding of [src/router.ts] (class [Router]) and of
    [src/providers/cloudflare-ai.ts] (class [CloudflareAIProvider]), and the
    properties of route resolution, provider fallback, response
    normalisation and stream forwarding that hold of them.

    Conventions.  JavaScript strings are [string]; [undefined] and [null]
    are explicit constructors or [None]; an effectful method is a function
    from a state to a completion (normal value or thrown value) and a new
    state; [console] output is part of the state.  An [async] method is
    shown run to completion: what it awaits is an oracle that resolves to a
    value or rejects. *)

From Stdlib Require Import String Ascii List ZArith NArith QArith Lia Bool.
From Stdlib Require Import Decimal DecimalString DecimalNat.
Import ListNotations.

Local Close Scope Q_scope.
Local Open Scope list_scope.
Local Open Scope string_scope.

(* ------------------------------------------------------------------ *)
(** ** JavaScript values, completions and effects *)

Module Js.

(** An [Error] instance: [name], [message], and the [statusCode] that the
    [ProxyError] subclass adds. *)
Record Error := mkError {
  name : string;
  message : string;
  statusCode : option Z
}.

(** The values that flow through [lastError: any] and [catch (error)]:
    [null], [undefined], a string, or an [Error] instance. *)
Inductive Value :=
| Null
| Undefined
| Str (s : string)
| Err (e : Error).

(** ToBoolean on those values. *)
Definition truthy (v : Value) : bool :=
  match v with
  | Null | Undefined => false
  | Str s => negb (s =? "")
  | Err _ => true
  end.

(** [Error.prototype.toString]. *)
Definition errorToString (e : Error) : string :=
  if name e =? "" then message e
  else if message e =? "" then name e
  else name e ++ ": " ++ message e.

(** ToString, as a template literal applies it. *)
Definition toString (v : Value) : string :=
  match v with
  | Null => "null"
  | Undefined => "undefined"
  | Str s => s
  | Err e => errorToString e
  end.

(** [v?.message]: property read with optional chaining. *)
Definition optMessage (v : Value) : Value :=
  match v with
  | Err e => Str (message e)
  | Null | Undefined | Str _ => Undefined
  end.

(** [a || b]. *)
Definition or (a b : Value) : Value := if truthy a then a else b.

(** An optional string property ([error?: string]) read as a value. *)
Definition ofOptString (o : option string) : Value :=
  match o with
  | Some s => Str s
  | None => Undefined
  end.

(** Decimal rendering of a non-negative integer Number ([`${i}`]). *)
Definition showNat (n : nat) : string :=
  NilZero.string_of_uint (Nat.to_uint n).

(** Decimal rendering of an integer Number ([`${Date.now()}`]). *)
Definition showZ (z : Z) : string :=
  NilZero.string_of_int (Z.to_int z).

(** [s.startsWith(p)]. *)
Definition startsWith (s p : string) : bool := String.prefix p s.

(** *** Completions and the effect monad *)

Inductive Completion (A : Type) :=
| Normal (a : A)
| Abrupt (thrown : Value).
Arguments Normal {A} a.
Arguments Abrupt {A} thrown.

Definition Eff (S A : Type) : Type := S -> Completion A * S.

Definition ret {S A} (a : A) : Eff S A := fun s => (Normal a, s).

Definition throw {S A} (v : Value) : Eff S A := fun s => (Abrupt v, s).

Definition bind {S A B} (m : Eff S A) (k : A -> Eff S B) : Eff S B :=
  fun s =>
    match m s with
    | (Normal a, s') => k a s'
    | (Abrupt v, s') => (Abrupt v, s')
    end.

(** [try { body } catch (error) { handler }]. *)
Definition tryCatch {S A} (body : Eff S A) (handler : Value -> Eff S A)
  : Eff S A :=
  fun s =>
    match body s with
    | (Normal a, s') => (Normal a, s')
    | (Abrupt v, s') => handler v s'
    end.

(** [try { body } finally { cleanup }], for a cleanup that does not throw. *)
Definition tryFinally {S A} (body : Eff S A) (cleanup : S -> S) : Eff S A :=
  fun s => let '(c, s') := body s in (c, cleanup s').

(** Run a computation on a component of the state. *)
Definition zoom {S T A} (get : S -> T) (set : T -> S -> S) (m : Eff T A)
  : Eff S A :=
  fun s => let '(c, t') := m (get s) in (c, set t' s).

(** *** The console *)

Inductive ConsoleEntry :=
| Log (line : string)
| ErrorLog (line : string) (payload : Value).

Definition Console := list ConsoleEntry.

(** *** Own-property enumeration of an ordinary object

    An object used as a map is the list of its own properties in the order
    in which they were created.  [Object.entries], [Object.keys] and
    [Object.values] enumerate array-index keys first, in ascending numeric
    order, and then the remaining string keys in creation order. *)

Definition Object (V : Type) := list (string * V).

Definition digit (c : ascii) : option N :=
  let n := N_of_ascii c in
  if ((48 <=? n) && (n <=? 57))%N then Some (n - 48)%N else None.

Fixpoint digitsValue (acc : N) (s : string) : option N :=
  match s with
  | EmptyString => Some acc
  | String c rest =>
      match digit c with
      | Some d => digitsValue (10 * acc + d)%N rest
      | None => None
      end
  end.

(** A key is an array index when it is the canonical decimal string of an
    integer in the range 0 .. 2^32 - 2. *)
Definition arrayIndex (key : string) : option N :=
  match key with
  | EmptyString => None
  | String c rest =>
      if (c =? "0")%char then
        match rest with EmptyString => Some 0%N | _ => None end
      else
        match digitsValue 0 key with
        | Some v => if (v <? 2 ^ 32 - 1)%N then Some v else None
        | None => None
        end
  end.

Definition isArrayIndex (key : string) : bool :=
  match arrayIndex key with Some _ => true | None => false end.

Fixpoint insertIndexed {V} (i : N) (kv : string * V)
    (sorted : list (N * (string * V))) : list (N * (string * V)) :=
  match sorted with
  | [] => [(i, kv)]
  | (j, kv') :: rest =>
      if (i <=? j)%N then (i, kv) :: sorted
      else (j, kv') :: insertIndexed i kv rest
  end.

(** The array-index properties of [o], in ascending index order. *)
Fixpoint indexedEntries {V} (o : Object V) : list (N * (string * V)) :=
  match o with
  | [] => []
  | kv :: rest =>
      match arrayIndex (fst kv) with
      | Some i => insertIndexed i kv (indexedEntries rest)
      | None => indexedEntries rest
      end
  end.

Definition entries {V} (o : Object V) : list (string * V) :=
  map snd (indexedEntries o)
    ++ filter (fun kv => negb (isArrayIndex (fst kv))) o.

Definition values {V} (o : Object V) : list V := map snd (entries o).

(** [o[key]] for an own property; [None] is [undefined].  (A key that
    starts with a slash names no inherited property.) *)
Definition get {V} (o : Object V) (key : string) : option V :=
  option_map snd (find (fun kv => fst kv =? key) o).

End Js.

Import Js.

Declare Scope eff_scope.
Delimit Scope eff_scope with eff.
Notation "x <- m ;; k" := (Js.bind m (fun x => k))
  (at level 61, m at next level, right associativity) : eff_scope.
Notation "m ;;; k" := (Js.bind m (fun _ => k))
  (at level 61, right associativity) : eff_scope.

Local Open Scope eff_scope.

(* ------------------------------------------------------------------ *)
(** ** The canonical protocol ([types.ts])

    Modelled from the spec: the declarations of [types.ts] are not among the
    sources; the records below carry the fields that [router.ts] and
    [cloudflare-ai.ts] read and write, with the types that section 3 of the
    specification gives them. *)

Module Types.

Inductive Role := system | user | assistant | tool.

Record FunctionCall := mkFunctionCall {
  fc_name : string;
  fc_arguments : string
}.

(** [ToolCall]: [type] is always ['function']. *)
Record ToolCall := mkToolCall {
  tc_id : string;
  tc_function : FunctionCall
}.

Record OpenAIMessage := mkMessage {
  role : Role;
  content : option string;
  tool_calls : option (list ToolCall)
}.

(** A tool definition; [parameters] is a JSON schema, kept abstract. *)
Record Tool (Schema : Type) := mkTool {
  tool_name : string;
  tool_description : option string;
  tool_parameters : option Schema
}.
Arguments mkTool {Schema}.
Arguments tool_name {Schema}.
Arguments tool_description {Schema}.
Arguments tool_parameters {Schema}.

Record OpenAIChatRequest (Schema : Type) := mkRequest {
  messages : list OpenAIMessage;
  temperature : option Q;
  max_tokens : option Z;
  top_p : option Q;
  tools : option (list (Tool Schema));
  stream : option bool
}.
Arguments mkRequest {Schema}.
Arguments messages {Schema}.
Arguments temperature {Schema}.
Arguments max_tokens {Schema}.
Arguments top_p {Schema}.
Arguments tools {Schema}.
Arguments stream {Schema}.

(** One entry of [choices] in a canonical non-streaming response. *)
Record Choice := mkChoice {
  index : nat;
  message : OpenAIMessage;
  finish_reason : string
}.

Record OpenAIChatResponse := mkChatResponse {
  response_model : string;
  choices : list Choice
}.

(** The delta of a canonical stream chunk; an absent property is [None]. *)
Record Delta := mkDelta {
  delta_role : option Role;
  delta_content : option string;
  delta_tool_calls : option (list ToolCall)
}.

(** What [createStreamChunk(delta, model, finishReason?)] is applied to. *)
Record StreamChunk := mkStreamChunk {
  chunk_delta : Delta;
  chunk_model : string;
  chunk_finish_reason : option string
}.

(** What has been written to the readable side of the [TransformStream]. *)
Inductive Frame :=
| ChunkFrame (chunk : StreamChunk)
| LiteralFrame (text : string).

Record ReadableStream := mkReadable {
  frames : list Frame;
  closed : bool
}.

(** [ProviderResponse]: [success] with [response] or [stream], or a failure
    with [error] and [statusCode]. *)
Record ProviderResponse := mkProviderResponse {
  success : bool;
  response : option OpenAIChatResponse;
  stream_handle : option ReadableStream;
  error : option string;
  statusCode : option Z
}.

Record ProviderConfig := mkProviderConfig {
  provider : string;
  model : string;
  apiKeys : list string
}.

Definition RouteConfig := Js.Object (list ProviderConfig).

End Types.

Import Types.

(* ------------------------------------------------------------------ *)
(** ** [router.ts]: class [Router] *)

Module Router.

(** Modelled from the spec: the [ProxyError] class of
    [utils/error-handler.ts], which is not among the sources.  It is the
    [Error] of section 7 that carries a message and a status classification;
    [new ProxyError(message, statusCode)] builds it. *)
Definition ProxyError (msg : string) (status : Z) : Js.Value :=
  Err (mkError "ProxyError" msg (Some status)).

Definition consoleLog (line : string) : Eff Console unit :=
  fun out => (Normal tt, (out ++ [Log line])%list).

Definition consoleError (line : string) (payload : Js.Value)
  : Eff Console unit :=
  fun out => (Normal tt, (out ++ [ErrorLog line payload])%list).

(** [path.startsWith('/') ? path : `/${path}`] *)
Definition normalizePath (path : string) : string :=
  if startsWith path "/" then path else "/" ++ path.

(** [Router.getProvidersForRoute].  A route's value is an array, which is
    truthy also when empty, so the exact-match test succeeds exactly when
    the property exists. *)
Definition getProvidersForRoute (routes : RouteConfig) (path : string)
  : Eff Console (list ProviderConfig) :=
  let normalizedPath := normalizePath path in
  match Js.get routes normalizedPath with
  | Some providers => ret providers
  | None =>
      match find (fun entry => startsWith normalizedPath (fst entry))
                 (Js.entries routes) with
      | Some (_, providers) => ret providers
      | None =>
          match Js.values routes with
          | defaultRoute :: _ =>
              consoleLog ("[Router] No route found for " ++ path
                          ++ ", using default route") ;;;
              ret defaultRoute
          | [] =>
              throw (ProxyError ("No providers configured for route: " ++ path)
                                404)
          end
      end
  end.

(** The object returned after the loop:
    [`All providers failed. Last error: ${lastError?.message || lastError || 'Unknown error'}`]
    with [statusCode: 500]. *)
Definition allProvidersFailed (lastError : Js.Value) : ProviderResponse :=
  {| success := false;
     response := None;
     stream_handle := None;
     error := Some ("All providers failed. Last error: "
                    ++ toString (Js.or (Js.or (optMessage lastError) lastError)
                                       (Str "Unknown error")));
     statusCode := Some 500%Z |}.

Section Fallback.

(** [TokenManager] is not among the sources.  Constructing one for a
    provider configuration and calling [executeWithRotation(request)] is an
    effect on the outside world that returns a [ProviderResponse] or throws. *)
Variable Schema : Type.
Variable World : Type.
Variable executeWithRotation :
  ProviderConfig -> OpenAIChatRequest Schema -> Eff World ProviderResponse.

(** The state a call of [executeWithFallback] acts on: the outside world,
    the console, and the record of the rotations started, in order. *)
Record State := mkState {
  world : World;
  invoked : list ProviderConfig;
  console : Console
}.

Definition onConsole {A} (m : Eff Console A) : Eff State A :=
  zoom console (fun out st => mkState (world st) (invoked st) out) m.

Definition rotate (config : ProviderConfig) (request : OpenAIChatRequest Schema)
  : Eff State ProviderResponse :=
  fun st =>
    let '(c, w) := executeWithRotation config request (world st) in
    (c, mkState w (invoked st ++ [config])%list (console st)).

(** How one iteration of the [for] loop ends: by [return response], or by
    falling through to the next index with [lastError] assigned. *)
Inductive Iteration :=
| Return (response : ProviderResponse)
| Next (lastError : Js.Value).

Definition providerLabel (config : ProviderConfig) : string :=
  provider config ++ "/" ++ model config.

(** The body of the loop at index [i]. *)
Definition tryProvider (request : OpenAIChatRequest Schema) (total i : nat)
    (config : ProviderConfig) : Eff State Iteration :=
  onConsole (consoleLog ("[Router] Trying provider " ++ showNat (i + 1) ++ "/"
                         ++ showNat total ++ ": " ++ providerLabel config)) ;;;
  tryCatch
    (response <- rotate config request ;;
     if success response then
       onConsole (consoleLog ("[Router] Success with provider: "
                              ++ providerLabel config)) ;;;
       ret (Return response)
     else
       onConsole (consoleLog ("[Router] Provider " ++ providerLabel config
                              ++ " failed: "
                              ++ toString (ofOptString (error response)))) ;;;
       ret (Next (ofOptString (error response))))
    (fun error =>
       onConsole (consoleError ("[Router] Provider " ++ providerLabel config
                                ++ " exception:") error) ;;;
       ret (Next error)).

(** The loop from index [i] on, [rest] being [providers.slice(i)]. *)
Fixpoint tryProviders (request : OpenAIChatRequest Schema) (total i : nat)
    (rest : list ProviderConfig) (lastError : Js.Value)
  : Eff State ProviderResponse :=
  match rest with
  | [] => ret (allProvidersFailed lastError)
  | config :: rest' =>
      iteration <- tryProvider request total i config ;;
      match iteration with
      | Return response => ret response
      | Next lastError' => tryProviders request total (S i) rest' lastError'
      end
  end.

(** [Router.executeWithFallback]. *)
Definition executeWithFallback (routes : RouteConfig) (path : string)
    (request : OpenAIChatRequest Schema) : Eff State ProviderResponse :=
  providers <- onConsole (getProvidersForRoute routes path) ;;
  onConsole (consoleLog ("[Router] Route " ++ path ++ " has "
                         ++ showNat (length providers)
                         ++ " provider(s) configured")) ;;;
  tryProviders request (length providers) 0 providers Null.

(** *** Vocabulary of the fallback properties *)

(** The completions of the rotations of [providers], were each of them
    started in turn from world [w]. *)
Fixpoint rotationOutcomes (request : OpenAIChatRequest Schema)
    (providers : list ProviderConfig) (w : World)
  : list (Completion ProviderResponse) :=
  match providers with
  | [] => []
  | config :: rest =>
      let '(c, w') := executeWithRotation config request w in
      c :: rotationOutcomes request rest w'
  end.

(** A provider attempt fails when the rotation returns a failure or throws. *)
Definition attemptFails (c : Completion ProviderResponse) : bool :=
  match c with
  | Normal r => negb (success r)
  | Abrupt _ => true
  end.

(** The error a failed attempt leaves in [lastError]. *)
Definition observedError (c : Completion ProviderResponse) : Js.Value :=
  match c with
  | Normal r => ofOptString (error r)
  | Abrupt v => v
  end.

End Fallback.

(** The text of an observed error: the string itself, or the [message] of
    an [Error]; [null] and [undefined] carry no text. *)
Definition errorText (v : Js.Value) : option string :=
  match v with
  | Str s => Some s
  | Err e => Some (Js.message e)
  | Null | Undefined => None
  end.

(** [needle] occurs in [s]. *)
Definition contains (s needle : string) : Prop :=
  exists before after, s = before ++ needle ++ after.

End Router.

(* ------------------------------------------------------------------ *)
(** ** [providers/cloudflare-ai.ts]: class [CloudflareAIProvider] *)

Module CloudflareAI.

(** Line feed, and the sentinel frame ['data: [DONE]\n\n']. *)
Definition LF : string := String (ascii_of_nat 10) EmptyString.
Definition doneSentinel : string := "data: [DONE]" ++ LF ++ LF.

(** Modelled from the spec: [createOpenAIResponse(content, model)] of
    [utils/response-mapper.ts], which is not among the sources.  Section 4.4
    makes it build the canonical envelope whose single choice has an
    assistant message with the given content, no tool calls, and the finish
    reason [stop] that section 4.3 requires when there are none. *)
Definition createOpenAIResponse (content model : string) : OpenAIChatResponse :=
  {| response_model := model;
     choices := [ {| index := 0;
                     message := {| role := assistant;
                                   content := Some content;
                                   tool_calls := None |};
                     finish_reason := "stop" |} ] |}.

(** Modelled from the spec: [createStreamChunk(delta, model, finishReason?)]
    of [utils/response-mapper.ts], which is not among the sources.  It
    serialises one canonical chunk with [choices[0].delta] the given delta
    and the given finish reason, none when the argument is omitted; the
    frame stands for that serialisation, encoded. *)
Definition createStreamChunk (delta : Delta) (model : string)
    (finishReason : option string) : Frame :=
  ChunkFrame {| chunk_delta := delta;
                chunk_model := model;
                chunk_finish_reason := finishReason |}.

(** *** Vocabulary of the stream properties *)

(** A chunk that carries a finish reason. *)
Definition isTerminal (f : Frame) : bool :=
  match f with
  | ChunkFrame c =>
      match chunk_finish_reason c with Some _ => true | None => false end
  | LiteralFrame _ => false
  end.

(** The [[DONE]] sentinel frame. *)
Definition isDone (f : Frame) : bool :=
  match f with
  | ChunkFrame _ => false
  | LiteralFrame text => text =? doneSentinel
  end.

Definition hasAssistantRole (d : Delta) : bool :=
  match delta_role d with Some assistant => true | _ => false end.

(** [body] consists of chunks without finish reason, of which the first has
    [role: 'assistant'] in its delta exactly when [isFirst], and the others
    have no role. *)
Fixpoint contentChunks (isFirst : bool) (body : list Frame) : bool :=
  match body with
  | [] => true
  | ChunkFrame c :: rest =>
      match chunk_finish_reason c, delta_role (chunk_delta c), isFirst with
      | None, Some assistant, true => contentChunks false rest
      | None, None, false => contentChunks false rest
      | _, _, _ => false
      end
  | LiteralFrame _ :: _ => false
  end.

(** The frames end as a canonical stream does: one terminal chunk with
    finish reason [reason], then the sentinel, neither occurring before. *)
Definition terminatesWith (reason : string) (frames : list Frame) : Prop :=
  exists body terminal,
    frames = (body ++ [ChunkFrame terminal; LiteralFrame doneSentinel])%list
    /\ chunk_finish_reason terminal = Some reason
    /\ forallb (fun f => negb (isTerminal f) && negb (isDone f)) body = true.

(** The first emitted chunk has [role: 'assistant'] in its delta. *)
Definition firstChunkHasRole (frames : list Frame) : bool :=
  match frames with
  | ChunkFrame c :: _ => hasAssistantRole (chunk_delta c)
  | _ => false
  end.

(** The frames of the stream a response hands to the caller. *)
Definition framesOf (r : ProviderResponse) : list Frame :=
  match stream_handle r with
  | Some readable => frames readable
  | None => []
  end.

(** A structured error: a failure with a message and a status. *)
Definition structuredError (r : ProviderResponse) : Prop :=
  success r = false /\ error r <> None /\ statusCode r <> None.

(** A stream that is closed after a terminal chunk and the sentinel. *)
Definition coherentStream (r : ProviderResponse) : Prop :=
  exists readable reason,
    stream_handle r = Some readable
    /\ closed readable = true
    /\ terminatesWith reason (frames readable).

(** The tool calls a frame carries in its delta. *)
Definition frameToolCalls (f : Frame) : list ToolCall :=
  match f with
  | ChunkFrame c =>
      match delta_tool_calls (chunk_delta c) with
      | Some calls => calls
      | None => []
      end
  | LiteralFrame _ => []
  end.

(** The tool calls of a response: those of the messages of its choices,
    and those of the chunks of its stream. *)
Definition responseToolCalls (r : ProviderResponse) : list ToolCall :=
  (match response r with
   | Some envelope =>
       flat_map (fun choice =>
                   match tool_calls (message choice) with
                   | Some calls => calls
                   | None => []
                   end) (choices envelope)
   | None => []
   end ++ flat_map frameToolCalls (framesOf r))%list.

(** The ids of the tool calls are pairwise distinct. *)
Definition distinctIds (calls : list ToolCall) : Prop :=
  NoDup (map tc_id calls).

Section Provider.

(** JSON values ([call.arguments], a tool's [parameters]) are opaque. *)
Variable Json : Type.
Variable JSON_stringify : Json -> string.
(** The literal [{ type: 'object', properties: {} }]. *)
Variable emptySchema : Json.
(** [dateNow n] is what the [n]-th call of [Date.now()] returns. *)
Variable dateNow : nat -> Z.
(** [new TextDecoder().decode(bytes)]. *)
Variable decode : list Byte.byte -> string.

(** *** What the Cloudflare AI binding is given and gives back *)

Record CfMessage := mkCfMessage {
  cf_role : Role;
  cf_content : string
}.

Record CfTool := mkCfTool {
  cf_tool_name : string;
  cf_tool_description : string;
  cf_tool_parameters : Json
}.

Record Params := mkParams {
  p_messages : list CfMessage;
  p_max_tokens : option Z;
  p_temperature : option Q;
  p_top_p : option Q;
  p_stream : bool;
  p_tools : option (list CfTool)
}.

Record CfToolCall := mkCfToolCall {
  cf_name : string;
  cf_arguments : Json
}.

(** A value of the dynamically typed upstream: a string, an object with an
    optional [response] and optional [tool_calls], or bytes. *)
Inductive CfValue :=
| CfString (s : string)
| CfObject (resp : option string) (calls : option (list CfToolCall))
| CfBytes (bytes : list Byte.byte).

(** How the upstream [ReadableStream] ends: [read()] reports [done], or
    rejects. *)
Inductive ReadEnd :=
| Exhausted
| ReadFault (error : Js.Value).

Record Upstream := mkUpstream {
  up_chunks : list CfValue;
  up_end : ReadEnd
}.

(** What [await aiBinding.run(model, params)] resolves to. *)
Inductive CfResult :=
| Result (value : CfValue)
| Stream (upstream : Upstream).

(** The binding injected at construction; [None] when it is unavailable. *)
Variable aiBinding : option (string -> Params -> Completion CfResult).

(** [handleError(error, providerName)] of [providers/base.ts], which is not
    among the sources. *)
Variable handleError : Js.Value -> string -> ProviderResponse.

(** The state the adapter acts on: the number of [Date.now()] calls made so
    far, and the console. *)
Record State := mkState {
  ticks : nat;
  console : Console
}.

Definition TypeError (msg : string) : Js.Value :=
  Err (mkError "TypeError" msg None).

Definition run (model : string) (params : Params) : Eff State CfResult :=
  match aiBinding with
  | Some binding => fun st => (binding model params, st)
  | None =>
      throw (TypeError "Cannot read properties of undefined (reading 'run')")
  end.

(** *** Conversions *)

(** [convertMessages]: the [tool] and [system] roles become [user]. *)
Definition convertMessage (msg : OpenAIMessage) : CfMessage :=
  let text := match content msg with Some s => s | None => "" end in
  match role msg with
  | tool => mkCfMessage user text
  | assistant => mkCfMessage assistant text
  | system => mkCfMessage user text
  | user => mkCfMessage user text
  end.

Definition convertMessages (msgs : list OpenAIMessage) : list CfMessage :=
  map convertMessage msgs.

(** [convertTools]; a [Tool] always has [type === 'function']. *)
Definition convertTools (ts : list (Tool Json)) : list CfTool :=
  map (fun t =>
         {| cf_tool_name := tool_name t;
            cf_tool_description :=
              match tool_description t with Some d => d | None => "" end;
            cf_tool_parameters :=
              match tool_parameters t with Some p => p | None => emptySchema end
         |}) ts.

Definition now : Eff State Z :=
  fun st => (Normal (dateNow (ticks st)), mkState (S (ticks st)) (console st)).

(** The callback of [convertToolCalls]:
    [id: `call_${Date.now()}_${index}`]. *)
Definition convertToolCall (call : CfToolCall) (index : nat)
  : Eff State ToolCall :=
  t <- now ;;
  ret {| tc_id := "call_" ++ showZ t ++ "_" ++ showNat index;
         tc_function := {| fc_name := cf_name call;
                           fc_arguments := JSON_stringify (cf_arguments call) |}
      |}.

(** [cfToolCalls.map(callback)], from position [index] on. *)
Fixpoint convertToolCallsFrom (index : nat) (cfToolCalls : list CfToolCall)
  : Eff State (list ToolCall) :=
  match cfToolCalls with
  | [] => ret []
  | call :: rest =>
      converted <- convertToolCall call index ;;
      others <- convertToolCallsFrom (S index) rest ;;
      ret (converted :: others)
  end.

Definition convertToolCalls (cfToolCalls : list CfToolCall)
  : Eff State (list ToolCall) :=
  convertToolCallsFrom 0 cfToolCalls.

(** *** Non-streaming *)

(** [response.response], when truthy. *)
Definition responseText (value : CfValue) : option string :=
  match value with
  | CfObject (Some text) _ => if text =? "" then None else Some text
  | _ => None
  end.

(** The [content] that [handleNonStream] extracts. *)
Definition extractContent (result : CfResult) : string :=
  match result with
  | Result value =>
      match responseText value with
      | Some text => text
      | None => match value with CfString s => s | _ => "" end
      end
  | Stream _ => ""
  end.

(** [response.tool_calls], when
    [response.tool_calls && response.tool_calls.length > 0]. *)
Definition presentToolCalls (result : CfResult) : option (list CfToolCall) :=
  match result with
  | Result (CfObject _ (Some (call :: rest))) => Some (call :: rest)
  | _ => None
  end.

(** The three assignments through [openAIResponse.choices[0]]. *)
Definition attachToolCalls (openAIResponse : OpenAIChatResponse)
    (cfToolCalls : list CfToolCall) : Eff State OpenAIChatResponse :=
  match choices openAIResponse with
  | first :: others =>
      converted <- convertToolCalls cfToolCalls ;;
      ret {| response_model := response_model openAIResponse;
             choices :=
               {| index := index first;
                  message := {| role := role (message first);
                                content := None;
                                tool_calls := Some converted |};
                  finish_reason := "tool_calls" |} :: others |}
  | [] =>
      throw (TypeError "Cannot read properties of undefined (reading 'message')")
  end.

Definition succeedWith (r : OpenAIChatResponse) : ProviderResponse :=
  {| success := true;
     response := Some r;
     stream_handle := None;
     error := None;
     statusCode := None |}.

(** [CloudflareAIProvider.handleNonStream]. *)
Definition handleNonStream (model : string) (params : Params)
  : Eff State ProviderResponse :=
  result <- run model params ;;
  let openAIResponse := createOpenAIResponse (extractContent result) model in
  match presentToolCalls result with
  | Some cfToolCalls =>
      withCalls <- attachToolCalls openAIResponse cfToolCalls ;;
      ret (succeedWith withCalls)
  | None => ret (succeedWith openAIResponse)
  end.

(** *** Streaming *)

(** The state of the background task: the adapter's state and the writer of
    the [TransformStream]. *)
Record Task := mkTask {
  task_state : State;
  written : list Frame;
  writer_closed : bool
}.

Definition onState {A} (m : Eff State A) : Eff Task A :=
  zoom task_state (fun st t => mkTask st (written t) (writer_closed t)) m.

(** [await writer.write(encoder.encode(frame))]. *)
Definition write (frame : Frame) : Eff Task unit :=
  fun t =>
    (Normal tt, mkTask (task_state t) (written t ++ [frame])%list
                       (writer_closed t)).

(** [await writer.close()]. *)
Definition close (t : Task) : Task :=
  mkTask (task_state t) (written t) true.

Definition logStreamError (error : Js.Value) : Eff Task unit :=
  fun t =>
    (Normal tt,
     mkTask (mkState (ticks (task_state t))
                     (console (task_state t)
                        ++ [ErrorLog "Stream error:" error])%list)
            (written t) (writer_closed t)).

(** The chunk parse: [text] and [toolCalls].  An object whose [response]
    is falsy reaches [decoder.decode(value)], which rejects what is not a
    buffer. *)
Definition parseChunk (value : CfValue)
  : Completion (string * option (list CfToolCall)) :=
  match value with
  | CfString s => Normal (s, None)
  | CfObject resp calls =>
      match responseText value with
      | Some text => Normal (text, calls)
      | None =>
          Abrupt (TypeError "The provided value is not of type '(ArrayBuffer or ArrayBufferView)'")
      end
  | CfBytes bytes => Normal (decode bytes, None)
  end.

Definition roleIfFirst (isFirst : bool) : option Role :=
  if isFirst then Some assistant else None.

(** One iteration of the [while] loop after a successful read of [value];
    returns the new [isFirst]. *)
Definition forwardChunk (model : string) (isFirst : bool) (value : CfValue)
  : Eff Task bool :=
  parsed <- (fun t => (parseChunk value, t)) ;;
  match snd parsed with
  | Some (call :: rest) =>
      converted <- onState (convertToolCalls (call :: rest)) ;;
      write (createStreamChunk
               {| delta_role := roleIfFirst isFirst;
                  delta_content := None;
                  delta_tool_calls := Some converted |} model None) ;;;
      ret false
  | _ =>
      if fst parsed =? "" then ret isFirst
      else
        write (createStreamChunk
                 {| delta_role := roleIfFirst isFirst;
                    delta_content := Some (fst parsed);
                    delta_tool_calls := None |} model None) ;;;
        ret false
  end.

(** The [while (true)] loop over the reads that remain. *)
Fixpoint readLoop (model : string) (isFirst : bool) (chunks : list CfValue)
    (ending : ReadEnd) : Eff Task unit :=
  match chunks with
  | [] =>
      match ending with
      | Exhausted => ret tt
      | ReadFault error => throw error
      end
  | value :: rest =>
      isFirst' <- forwardChunk model isFirst value ;;
      readLoop model isFirst' rest ending
  end.

(** [params.tools ? 'tool_calls' : 'stop']; an array is truthy. *)
Definition finishReasonFor (params : Params) : string :=
  match p_tools params with
  | Some _ => "tool_calls"
  | None => "stop"
  end.

(** The background task, run to completion. *)
Definition forwardStream (model : string) (params : Params)
    (cfStream : CfResult) : Eff Task unit :=
  tryFinally
    (tryCatch
       (match cfStream with
        | Stream upstream =>
            readLoop model true (up_chunks upstream) (up_end upstream)
        | Result _ => throw (TypeError "cfStream.getReader is not a function")
        end ;;;
        write (createStreamChunk (mkDelta None None None) model
                                 (Some (finishReasonFor params))) ;;;
        write (LiteralFrame doneSentinel))
       (fun error => logStreamError error))
    close.

(** [CloudflareAIProvider.handleStream].  The readable side returned to the
    caller is shown with everything the background task writes to it. *)
Definition handleStream (model : string) (params : Params)
  : Eff State ProviderResponse :=
  cfStream <- run model params ;;
  fun st =>
    let task := snd (forwardStream model params cfStream (mkTask st [] false)) in
    (Normal {| success := true;
               response := None;
               stream_handle := Some (mkReadable (written task)
                                                 (writer_closed task));
               error := None;
               statusCode := None |},
     task_state task).

(** *** [chat] *)

Definition buildParams (request : OpenAIChatRequest Json) : Params :=
  {| p_messages := convertMessages (messages request);
     p_max_tokens := max_tokens request;
     p_temperature := temperature request;
     p_top_p := top_p request;
     p_stream := match stream request with Some b => b | None => false end;
     p_tools := match tools request with
                | Some (t :: ts) => Some (convertTools (t :: ts))
                | _ => None
                end |}.

(** [CloudflareAIProvider.chat].  The handlers are returned without
    [await], so the [catch] covers only what precedes them. *)
Definition chat (model : string) (request : OpenAIChatRequest Json)
    (_apiKey : string) : Eff State ProviderResponse :=
  prepared <-
    tryCatch
      (match aiBinding with
       | None => throw (Err (mkError "Error" "Cloudflare AI binding not available" None))
       | Some _ => ret (inr (buildParams request))
       end)
      (fun error => ret (inl (handleError error "CloudflareAIProvider"))) ;;
  match prepared with
  | inl failure => ret failure
  | inr params =>
      if p_stream params then handleStream model params
      else handleNonStream model params
  end.

(** *** Vocabulary of the adapter properties *)


(** The request declares at least one tool. *)
Definition declaresTools (request : OpenAIChatRequest Json) : bool :=
  match tools request with
  | Some (_ :: _) => true
  | _ => false
  end.

(** The fault that ends the consumption of an upstream, if any: the first
    chunk that cannot be parsed, or else the rejected read. *)
Fixpoint firstFault (chunks : list CfValue) (ending : ReadEnd)
  : option Js.Value :=
  match chunks with
  | [] =>
      match ending with
      | Exhausted => None
      | ReadFault error => Some error
      end
  | value :: rest =>
      match parseChunk value with
      | Abrupt error => Some error
      | Normal _ => firstFault rest ending
      end
  end.

(** The frames one iteration writes for an upstream chunk. *)
Definition chunkFrames (model : string) (isFirst : bool) (value : CfValue)
    (st : State) : list Frame :=
  written (snd (forwardChunk model isFirst value (mkTask st [] false))).

(** An upstream chunk with both textual content and tool-call data. *)
Definition carriesBoth (value : CfValue) : bool :=
  match value with
  | CfObject (Some text) (Some (_ :: _)) => negb (text =? "")
  | _ => false
  end.

(** The text of an upstream chunk: the string itself, its [response]
    property, or its bytes decoded. *)
Definition chunkText (value : CfValue) : string :=
  match value with
  | CfString s => s
  | CfObject (Some text) _ => text
  | CfObject None _ => ""
  | CfBytes bytes => decode bytes
  end.

End Provider.

End CloudflareAI.

(* ------------------------------------------------------------------ *)
(** ** Sample configurations and upstreams *)

Module Samples.

Definition providerA : ProviderConfig := mkProviderConfig "openai" "gpt-4o" ["k1"].
Definition providerB : ProviderConfig := mkProviderConfig "anthropic" "claude" ["k2"].
Definition providerC : ProviderConfig :=
  mkProviderConfig "cloudflare" "llama" ["k3"; "k4"].

(** Two overlapping prefixes and a key that is an array index. *)
Definition prefixRoutes : RouteConfig :=
  [("/fast", [providerA]); ("/f", [providerB]); ("7", [providerC])].

(** The array-index key was created last and is enumerated first. *)
Definition indexRoutes : RouteConfig :=
  [("/fast", [providerA]); ("7", [providerB])].

Definition emptyListRoutes : RouteConfig := [("/none", [])].

Definition chainRoutes : RouteConfig :=
  [("/chain", [providerA; providerB; providerC; providerA])].

Definition failingRoutes : RouteConfig :=
  [("/down", [providerA; providerB])].

Definition request : OpenAIChatRequest unit :=
  mkRequest [mkMessage user (Some "2+2") None] None None None None (Some false).

(** A rotation that fails with a message for [providerA], throws for
    [providerB] and succeeds for the others; the world counts the calls. *)
Definition rotation (config : ProviderConfig) (_ : OpenAIChatRequest unit)
  : Eff nat ProviderResponse :=
  fun calls =>
    if provider config =? "openai" then
      (Normal (mkProviderResponse false None None (Some "quota exceeded")
                                  (Some 429%Z)), S calls)
    else if provider config =? "anthropic" then
      (Abrupt (Err (mkError "TypeError" "fetch failed" None)), S calls)
    else
      (Normal (mkProviderResponse true None None None None), S calls).

Definition start : Router.State nat := Router.mkState nat 0 [] [].

(** *** The adapter *)

Definition stringify (_ : unit) : string := "{}".
Definition clock (_ : nat) : Z := 1700000000000%Z.
Definition decodeBytes (bytes : list Byte.byte) : string :=
  string_of_list_byte bytes.
Definition failWith (error : Js.Value) (providerName : string)
  : ProviderResponse :=
  mkProviderResponse false None None
    (Some (providerName ++ ": " ++ toString error)) (Some 500%Z).

Definition bindingOf (result : CloudflareAI.CfResult unit)
  : option (string -> CloudflareAI.Params unit
            -> Completion (CloudflareAI.CfResult unit)) :=
  Some (fun _ _ => Normal result).

Definition adapterStart : CloudflareAI.State := CloudflareAI.mkState 0 [].

Definition streamRequest : OpenAIChatRequest unit :=
  mkRequest [mkMessage user (Some "Count from 1 to 5") None]
            None None None None (Some true).

Definition toolStreamRequest : OpenAIChatRequest unit :=
  mkRequest [mkMessage user (Some "What is the weather in Paris?") None]
            None None None (Some [mkTool "get_weather" None None]) (Some true).

Definition weatherCall : CloudflareAI.CfToolCall unit :=
  CloudflareAI.mkCfToolCall unit "get_weather" tt.

(** An upstream that ends at once. *)
Definition emptyUpstream : CloudflareAI.Upstream unit :=
  CloudflareAI.mkUpstream unit [] (CloudflareAI.Exhausted).

(** An upstream whose second read is rejected. *)
Definition brokenUpstream : CloudflareAI.Upstream unit :=
  CloudflareAI.mkUpstream unit [CloudflareAI.CfString unit "Hi"]
    (CloudflareAI.ReadFault (Err (mkError "Error" "connection reset" None))).

(** An upstream of text, an empty fragment, tool calls with text, text. *)
Definition mixedUpstream : CloudflareAI.Upstream unit :=
  CloudflareAI.mkUpstream unit
    [CloudflareAI.CfString unit "Hi";
     CloudflareAI.CfString unit "";
     CloudflareAI.CfObject unit (Some "calling") (Some [weatherCall; weatherCall]);
     CloudflareAI.CfString unit "done"]
    (CloudflareAI.Exhausted).

(** An upstream of two chunks with one tool call each. *)
Definition twoCallUpstream : CloudflareAI.Upstream unit :=
  CloudflareAI.mkUpstream unit
    [CloudflareAI.CfObject unit (Some "first") (Some [weatherCall]);
     CloudflareAI.CfObject unit (Some "second") (Some [weatherCall])]
    (CloudflareAI.Exhausted).

Definition toolResult : CloudflareAI.CfResult unit :=
  CloudflareAI.Result unit
    (CloudflareAI.CfObject unit (Some "calling") (Some [weatherCall; weatherCall])).

Definition adapterChat (upstream : CloudflareAI.CfResult unit)
    (request : OpenAIChatRequest unit) :=
  CloudflareAI.chat unit stringify tt clock decodeBytes (bindingOf upstream)
    failWith "@cf/meta/llama" request "unused-key" adapterStart.

(** An upstream of text only: two strings around an empty one, then bytes. *)
Definition textUpstream : CloudflareAI.Upstream unit :=
  CloudflareAI.mkUpstream unit
    [CloudflareAI.CfString unit "Hel";
     CloudflareAI.CfString unit "";
     CloudflareAI.CfBytes unit [Byte.x6c; Byte.x6f]]
    (CloudflareAI.Exhausted).

End Samples.

(* ------------------------------------------------------------------ *)
(** ** [router.ts]: construction of a [Router] *)

Module Startup.

(** Modelled from the spec: the [Env] of [types.ts], of which the router
    reads [ROUTES_CONFIG]; an absent variable is [None]. *)
Record Env := mkEnv {
  ROUTES_CONFIG : option string
}.

(** What [JSON.parse] yields for a configuration: an object from route
    paths to provider lists, or [null]. *)
Inductive Parsed :=
| ParsedObject (config : RouteConfig)
| ParsedNull.

(** The two console calls of [parseRoutesConfig], with their payloads:
    [console.log('[Router] Loaded routes:', Object.keys(config))] and
    [console.error('[Router] Failed to parse ROUTES_CONFIG:', error)]. *)
Inductive StartupEntry :=
| LoadedRoutes (keys : list string)
| ParseFailed (error : Js.Value).

Section Parse.

(** [JSON.parse(text)] returns a value or throws a [SyntaxError]. *)
Variable JSON_parse : string -> Completion Parsed.

Definition logLoaded (keys : list string) : Eff (list StartupEntry) unit :=
  fun out => (Normal tt, (out ++ [LoadedRoutes keys])%list).

Definition logFailed (error : Js.Value) : Eff (list StartupEntry) unit :=
  fun out => (Normal tt, (out ++ [ParseFailed error])%list).

(** [Router.parseRoutesConfig].  [!configStr] holds of [undefined] and of
    the empty string; [Object.keys] throws on [null]. *)
Definition parseRoutesConfig (env : Env)
  : Eff (list StartupEntry) RouteConfig :=
  tryCatch
    (match ROUTES_CONFIG env with
     | Some configStr =>
         if configStr =? "" then
           throw (Err (mkError "Error"
                         "ROUTES_CONFIG not found in environment" None))
         else
           config <- (fun out => (JSON_parse configStr, out)) ;;
           match config with
           | ParsedObject routes =>
               logLoaded (map fst (Js.entries routes)) ;;;
               ret routes
           | ParsedNull =>
               throw (Err (mkError "TypeError"
                             "Cannot convert undefined or null to object" None))
           end
     | None =>
         throw (Err (mkError "Error"
                       "ROUTES_CONFIG not found in environment" None))
     end)
    (fun error =>
       logFailed error ;;;
       throw (Router.ProxyError "Invalid ROUTES_CONFIG" 500)).

End Parse.

End Startup.

(* ------------------------------------------------------------------ *)
(** ** Vocabulary of further properties *)

Module Observations.

(** The text that follows [Last error: ] in the aggregate failure, by the
    shape of the last error. *)
Definition lastErrorText (v : Js.Value) : string :=
  match v with
  | Null | Undefined => "Unknown error"
  | Str s => if s =? "" then "Unknown error" else s
  | Err e => if Js.message e =? "" then errorToString e else Js.message e
  end.

Section Worlds.

Variable Schema : Type.
Variable World : Type.
Variable executeWithRotation :
  ProviderConfig -> OpenAIChatRequest Schema -> Eff World ProviderResponse.

(** The outside world after the rotations of [providers], run in turn. *)
Fixpoint worldAfter (request : OpenAIChatRequest Schema)
    (providers : list ProviderConfig) (w : World) : World :=
  match providers with
  | [] => w
  | config :: rest =>
      worldAfter request rest (snd (executeWithRotation config request w))
  end.

End Worlds.

(** A message without its tool calls. *)
Definition withoutToolCalls (msg : OpenAIMessage) : OpenAIMessage :=
  mkMessage (role msg) (content msg) None.

(** The content of the delta of a frame. *)
Definition frameContent (f : Frame) : option string :=
  match f with
  | ChunkFrame c => delta_content (chunk_delta c)
  | LiteralFrame _ => None
  end.

Section Chunks.

Variable Json : Type.

(** An upstream chunk that carries no tool call. *)
Definition textOnly (value : CloudflareAI.CfValue Json) : bool :=
  match value with
  | CloudflareAI.CfObject _ _ (Some (_ :: _)) => false
  | _ => true
  end.

End Chunks.

Section Forwarding.

Variable Json : Type.
Variable JSON_stringify : Json -> string.
Variable decode : list Byte.byte -> string.

(** The tool calls of an upstream chunk. *)
Definition chunkToolCalls (value : CloudflareAI.CfValue Json)
  : list (CloudflareAI.CfToolCall Json) :=
  match value with
  | CloudflareAI.CfObject _ _ (Some calls) => calls
  | _ => []
  end.

(** An upstream chunk that is a string, bytes, or an object whose
    [response] is a non-empty string. *)
Definition readableChunk (value : CloudflareAI.CfValue Json) : bool :=
  match value with
  | CloudflareAI.CfString _ _ => true
  | CloudflareAI.CfObject _ (Some text) _ => negb (text =? "")
  | CloudflareAI.CfObject _ None _ => false
  | CloudflareAI.CfBytes _ _ => true
  end.

(** The upstream chunks that are read and parsed before the stream
    faults: those before the first one that cannot be parsed. *)
Fixpoint readBefore (chunks : list (CloudflareAI.CfValue Json))
  : list (CloudflareAI.CfValue Json) :=
  match chunks with
  | [] => []
  | value :: rest =>
      match CloudflareAI.parseChunk Json decode value with
      | Normal _ => value :: readBefore rest
      | Abrupt _ => []
      end
  end.

(** The upstream chunks whose text is not empty. *)
Definition withText (chunks : list (CloudflareAI.CfValue Json))
  : list (CloudflareAI.CfValue Json) :=
  filter (fun value => negb (CloudflareAI.chunkText Json decode value =? ""))
         chunks.

(** What a canonical tool call carries besides its id, and what it is to
    carry for an upstream call. *)
Definition toolCallPayload (call : ToolCall) : string * string :=
  (fc_name (tc_function call), fc_arguments (tc_function call)).

Definition upstreamPayload (call : CloudflareAI.CfToolCall Json)
  : string * string :=
  (CloudflareAI.cf_name Json call,
   JSON_stringify (CloudflareAI.cf_arguments Json call)).

(** Frame [f] is the canonical chunk for the upstream chunk [value]: a
    chunk for [model] without finish reason that carries the tool calls of
    [value], converted in order, and no content when there are some, and
    the text of [value] and no tool calls when there are none. *)
Definition forwards (model : string) (value : CloudflareAI.CfValue Json)
    (f : Frame) : Prop :=
  match f with
  | ChunkFrame c =>
      chunk_model c = model
      /\ chunk_finish_reason c = None
      /\ match chunkToolCalls value with
         | [] =>
             delta_content (chunk_delta c)
             = Some (CloudflareAI.chunkText Json decode value)
             /\ delta_tool_calls (chunk_delta c) = None
         | calls =>
             delta_content (chunk_delta c) = None
             /\ exists converted,
                  delta_tool_calls (chunk_delta c) = Some converted
                  /\ map toolCallPayload converted = map upstreamPayload calls
         end
  | LiteralFrame _ => False
  end.

End Forwarding.

End Observations.

(* ------------------------------------------------------------------ *)
(** * Properties *)

(** ** Strings and own-property enumeration *)

Lemma append_empty_r (s : string) : s ++ "" = s.
Proof. induction s as [|c s IH]; simpl; [reflexivity | now rewrite IH]. Qed.

Lemma append_assoc (a b c : string) : (a ++ b) ++ c = a ++ (b ++ c).
Proof. induction a as [|x a IH]; simpl; [reflexivity | now rewrite IH]. Qed.

Lemma prefix_cons (a b : ascii) (s1 s2 : string) :
  String.prefix (String a s1) (String b s2)
  = if ascii_dec a b then String.prefix s1 s2 else false.
Proof. reflexivity. Qed.

Lemma normalizePath_slash (path : string) :
  exists rest, Router.normalizePath path = String "/" rest.
Proof.
  unfold Router.normalizePath, startsWith.
  destruct path as [|c rest].
  - now exists "".
  - rewrite prefix_cons. destruct (ascii_dec "/" c) as [<-|_].
    + exists rest. now destruct rest.
    + now exists (String c rest).
Qed.

(** An array-index key starts with a digit, so no path that starts with a
    slash starts with it. *)
Lemma arrayIndex_not_prefix (key rest : string) (i : N) :
  arrayIndex key = Some i -> startsWith (String "/" rest) key = false.
Proof.
  unfold startsWith. destruct key as [|c key']; [discriminate|].
  intros H. rewrite prefix_cons.
  destruct (ascii_dec c "/") as [->|_]; [|reflexivity].
  cbn in H. discriminate H.
Qed.

Lemma find_app {A} (f : A -> bool) (l1 l2 : list A) :
  find f (l1 ++ l2)%list
  = match find f l1 with Some x => Some x | None => find f l2 end.
Proof.
  induction l1 as [|x l1 IH]; simpl; [reflexivity|].
  now destruct (f x).
Qed.

Lemma find_none_all {A} (f : A -> bool) (l : list A) :
  (forall x, In x l -> f x = false) -> find f l = None.
Proof.
  induction l as [|x l IH]; simpl; intros H; [reflexivity|].
  rewrite (H x (or_introl eq_refl)). apply IH. intros y Hy. apply H. now right.
Qed.

Lemma find_filter_skip {A} (f keep : A -> bool) (l : list A) :
  (forall x, keep x = false -> f x = false) ->
  find f (filter keep l) = find f l.
Proof.
  intros H. induction l as [|x l IH]; simpl; [reflexivity|].
  destruct (keep x) eqn:K; simpl.
  - now rewrite IH.
  - now rewrite (H x K).
Qed.

(** Where [find] stops: at the first element that satisfies the test. *)
Lemma find_first {A} (f : A -> bool) (l : list A) (x : A) :
  find f l = Some x ->
  exists before after,
    l = (before ++ x :: after)%list
    /\ f x = true
    /\ forall y, In y before -> f y = false.
Proof.
  induction l as [|y l IH]; simpl; [discriminate|].
  destruct (f y) eqn:Fy.
  - intros [= <-]. exists [], l. repeat split; trivial. intros ? [].
  - intros H. destruct (IH H) as (before & after & -> & Fx & Hb).
    exists (y :: before), after. repeat split; trivial.
    intros z [<-|Hz]; auto.
Qed.

Lemma find_some_exists {A} (f : A -> bool) (l : list A) (x : A) :
  In x l -> f x = true -> exists y, find f l = Some y.
Proof.
  induction l as [|y l IH]; simpl; [intros []|].
  intros [<-|Hx] Fx.
  - rewrite Fx. now exists y.
  - destruct (f y); [now exists y | now apply IH].
Qed.

Lemma insertIndexed_In {V} (i : N) (kv : string * V) sorted (x : N * (string * V)) :
  In x (insertIndexed i kv sorted) -> x = (i, kv) \/ In x sorted.
Proof.
  induction sorted as [|[j kv'] sorted IH]; simpl.
  - intros [<-|[]]. now left.
  - destruct (i <=? j)%N; simpl.
    + intros [<-|H]; [now left | now right].
    + intros [<-|H]; [right; now left|].
      destruct (IH H) as [->|H']; [now left | right; now right].
Qed.

(** Every entry sorted by index has an array-index key. *)
Lemma indexedEntries_key {V} (o : Js.Object V) (i : N) (kv : string * V) :
  In (i, kv) (indexedEntries o) -> arrayIndex (fst kv) = Some i /\ In kv o.
Proof.
  induction o as [|kv0 o IH]; simpl; [intros []|].
  destruct (arrayIndex (fst kv0)) eqn:K.
  - intros H. apply insertIndexed_In in H. destruct H as [[= <- <-]|H].
    + split; [assumption | now left].
    + destruct (IH H). split; [assumption | now right].
  - intros H. destruct (IH H). split; [assumption | now right].
Qed.

(** A test that rejects every array-index key finds, in enumeration order,
    what it finds in creation order. *)
Lemma find_entries {V} (f : string * V -> bool) (o : Js.Object V) :
  (forall kv, isArrayIndex (fst kv) = true -> f kv = false) ->
  find f (Js.entries o) = find f o.
Proof.
  intros H. unfold Js.entries. rewrite find_app.
  rewrite find_none_all.
  - apply find_filter_skip. intros kv K. apply H.
    now destruct (isArrayIndex (fst kv)).
  - intros kv Hkv. apply in_map_iff in Hkv. destruct Hkv as ([i kv'] & <- & Hin).
    apply indexedEntries_key in Hin. destruct Hin as [K _].
    apply H. unfold isArrayIndex. simpl. now rewrite K.
Qed.

Lemma indexedEntries_nil {V} (o : Js.Object V) :
  (forall kv, In kv o -> isArrayIndex (fst kv) = false) ->
  indexedEntries o = [].
Proof.
  induction o as [|kv o IH]; simpl; intros H; [reflexivity|].
  pose proof (H kv (or_introl eq_refl)) as K. unfold isArrayIndex in K.
  destruct (arrayIndex (fst kv)); [discriminate|].
  apply IH. intros x Hx. apply H. now right.
Qed.

(** Without array-index keys, enumeration order is creation order. *)
Lemma entries_creation_order {V} (o : Js.Object V) :
  (forall kv, In kv o -> isArrayIndex (fst kv) = false) ->
  Js.entries o = o.
Proof.
  intros H. unfold Js.entries. rewrite indexedEntries_nil by assumption. simpl.
  induction o as [|kv o IH]; simpl; [reflexivity|].
  rewrite (H kv (or_introl eq_refl)). simpl. f_equal.
  apply IH. intros x Hx. apply H. now right.
Qed.

Lemma entries_nil_iff {V} (o : Js.Object V) : Js.entries o = [] -> o = [].
Proof.
  destruct o as [|kv o]; [reflexivity|]. unfold Js.entries. simpl.
  unfold isArrayIndex. destruct (arrayIndex (fst kv)) eqn:K; simpl.
  - intros H. apply app_eq_nil in H. destruct H as [H _].
    destruct (indexedEntries o) as [|[j kv'] l]; simpl in H.
    + discriminate.
    + destruct (n <=? j)%N; discriminate.
  - intros H. apply app_eq_nil in H. destruct H as [_ H]. discriminate.
Qed.

(** ** Route resolution *)

Section Resolution.

Import Router.

Variable routes : RouteConfig.
Variable path : string.

Lemma prefix_test_skips_indices (entry : string * list ProviderConfig) :
  isArrayIndex (fst entry) = true ->
  startsWith (normalizePath path) (fst entry) = false.
Proof.
  unfold isArrayIndex. destruct (arrayIndex (fst entry)) as [i|] eqn:K;
    [intros _ | discriminate].
  destruct (normalizePath_slash path) as [rest ->].
  exact (arrayIndex_not_prefix _ _ _ K).
Qed.

(** C7. When the normalized path has no exact match and some route key is a
    prefix of it, resolution returns the provider list of the first such
    route in creation order of the table, whatever the console holds: the
    result is a function of the table and the path. *)
Theorem prefix_route_first_inserted :
  Js.get routes (normalizePath path) = None ->
  (exists key providers,
      In (key, providers) routes
      /\ startsWith (normalizePath path) key = true) ->
  exists key providers before after,
    routes = (before ++ (key, providers) :: after)%list
    /\ startsWith (normalizePath path) key = true
    /\ (forall entry, In entry before ->
          startsWith (normalizePath path) (fst entry) = false)
    /\ forall out,
         getProvidersForRoute routes path out = (Normal providers, out).
Proof.
  intros Hexact (key0 & providers0 & Hin & Hpre).
  pose (test := fun entry : string * list ProviderConfig =>
                  startsWith (normalizePath path) (fst entry)).
  destruct (find_some_exists test routes (key0, providers0) Hin Hpre)
    as [[key providers] Hfind].
  destruct (find_first _ _ _ Hfind) as (before & after & Hsplit & Hkey & Hbefore).
  exists key, providers, before, after. repeat split; try assumption.
  intros out. unfold getProvidersForRoute. cbv zeta. rewrite Hexact.
  fold test. rewrite (find_entries test routes prefix_test_skips_indices).
  rewrite Hfind. reflexivity.
Qed.

(** C8 (amended). When the normalized path has no exact match and no route
    key is a prefix of it: a non-empty table yields the provider list of the
    first route in own-property enumeration order, and a diagnostic; that is
    the first-created route when no key is an array index; an empty table
    makes resolution throw a [ProxyError] with status 404. *)
Theorem default_route_or_not_found :
  Js.get routes (normalizePath path) = None ->
  (forall entry, In entry routes ->
     startsWith (normalizePath path) (fst entry) = false) ->
  (routes <> [] ->
     exists defaultRoute,
       hd_error (Js.values routes) = Some defaultRoute
       /\ (forall out,
             getProvidersForRoute routes path out
             = (Normal defaultRoute,
                (out ++ [Log ("[Router] No route found for " ++ path
                              ++ ", using default route")])%list))
       /\ ((forall entry, In entry routes -> isArrayIndex (fst entry) = false) ->
           hd_error (map snd routes) = Some defaultRoute))
  /\ (routes = [] ->
      forall out,
        exists e,
          getProvidersForRoute routes path out = (Abrupt (Err e), out)
          /\ Js.statusCode e = Some 404%Z
          /\ Js.message e = "No providers configured for route: " ++ path).
Proof.
  intros Hexact Hnone.
  assert (Hfind : find (fun entry : string * list ProviderConfig =>
                          startsWith (normalizePath path) (fst entry))
                       (Js.entries routes) = None).
  { rewrite (find_entries _ routes prefix_test_skips_indices).
    now apply find_none_all. }
  split.
  - intros Hne. unfold Js.values.
    destruct (Js.entries routes) as [|[key0 first] others] eqn:E.
    + now apply entries_nil_iff in E.
    + exists first. split; [reflexivity|]. split.
      * intros out. unfold getProvidersForRoute, Js.values. cbv zeta.
        rewrite Hexact, E, Hfind. reflexivity.
      * intros Hkeys. rewrite entries_creation_order in E by assumption.
        now rewrite E.
  - intros -> out. eexists. split; [reflexivity|]. now split.
Qed.

End Resolution.

(** C7, on a table with two overlapping prefixes. *)
Lemma prefix_route_first_inserted_witness :
  Js.get Samples.prefixRoutes (Router.normalizePath "fa") = None
  /\ exists key providers before after,
       Samples.prefixRoutes = (before ++ (key, providers) :: after)%list
       /\ startsWith (Router.normalizePath "fa") key = true
       /\ (forall entry, In entry before ->
             startsWith (Router.normalizePath "fa") (fst entry) = false)
       /\ forall out,
            Router.getProvidersForRoute Samples.prefixRoutes "fa" out
            = (Normal providers, out).
Proof.
  split; [reflexivity|].
  apply (prefix_route_first_inserted Samples.prefixRoutes "fa").
  - reflexivity.
  - exists "/f", [Samples.providerB]. split; [right; left|]; reflexivity.
Defined.

(** C8, on a table of one route and a path outside it. *)
Lemma default_route_or_not_found_witness :
  (Samples.failingRoutes <> [] ->
     exists defaultRoute,
       hd_error (Js.values Samples.failingRoutes) = Some defaultRoute
       /\ (forall out,
             Router.getProvidersForRoute Samples.failingRoutes "/up" out
             = (Normal defaultRoute,
                (out ++ [Log ("[Router] No route found for " ++ "/up"
                              ++ ", using default route")])%list))
       /\ ((forall entry, In entry Samples.failingRoutes ->
              isArrayIndex (fst entry) = false) ->
           hd_error (map snd Samples.failingRoutes) = Some defaultRoute))
  /\ (Samples.failingRoutes = [] ->
      forall out,
        exists e,
          Router.getProvidersForRoute Samples.failingRoutes "/up" out
          = (Abrupt (Err e), out)
          /\ Js.statusCode e = Some 404%Z
          /\ Js.message e = "No providers configured for route: " ++ "/up").
Proof.
  apply (default_route_or_not_found Samples.failingRoutes "/up").
  - reflexivity.
  - intros entry [<-|[]]. reflexivity.
Defined.

(** C8 as stated fails: with the table [{"/fast": [A], "7": [B]}] and the
    path [/zzz], no route matches exactly or by prefix, the table is not
    empty, its first-created route has the list [[A]], and resolution
    returns [[B]]. *)
Lemma default_route_counterexample :
  Js.get Samples.indexRoutes (Router.normalizePath "/zzz") = None
  /\ (forall entry, In entry Samples.indexRoutes ->
        startsWith (Router.normalizePath "/zzz") (fst entry) = false)
  /\ hd_error (map snd Samples.indexRoutes) = Some [Samples.providerA]
  /\ fst (Router.getProvidersForRoute Samples.indexRoutes "/zzz" [])
     <> Normal [Samples.providerA].
Proof.
  split; [reflexivity|]. split; [|split; [reflexivity|]].
  - intros entry [<-|[<-|[]]]; reflexivity.
  - intros H. vm_compute in H. discriminate H.
Qed.

(** ** Provider fallback *)

Lemma last_cons {A} (x d : A) (l : list A) : last (x :: l) d = last l x.
Proof.
  revert x d. induction l as [|y l IH]; intros x d; [reflexivity|].
  change (last (x :: y :: l) d) with (last (y :: l) d).
  now rewrite !IH.
Qed.

(** [lastError?.message || lastError || 'Unknown error'], rendered. *)
Lemma lastError_detail (v : Js.Value) :
  toString (Js.or (Js.or (optMessage v) v) (Str "Unknown error"))
  = match v with
    | Null | Undefined => "Unknown error"
    | Str s => if s =? "" then "Unknown error" else s
    | Err e => if Js.message e =? "" then errorToString e else Js.message e
    end.
Proof.
  destruct v as [| |s|e]; try reflexivity.
  - unfold Js.or, optMessage, truthy. destruct (s =? ""); reflexivity.
  - unfold Js.or, optMessage, truthy.
    destruct (Js.message e =? "") eqn:E; simpl; rewrite ?E; reflexivity.
Qed.

Lemma contains_empty (s : string) : Router.contains s "".
Proof. exists s, "". simpl. now rewrite append_empty_r. Qed.

Lemma contains_suffix (a t : string) : Router.contains (a ++ t) t.
Proof. exists a, "". now rewrite append_empty_r. Qed.

(** The message of the aggregate failure embeds the text of the error it
    was built from. *)
Lemma allProvidersFailed_embeds (v : Js.Value) (t : string) :
  Router.errorText v = Some t ->
  exists text,
    error (Router.allProvidersFailed v) = Some text
    /\ Router.contains text t.
Proof.
  intros Ht. unfold Router.allProvidersFailed.
  cbn [error]. rewrite lastError_detail.
  eexists. split; [reflexivity|].
  destruct v as [| |s|e]; simpl in Ht; try discriminate;
    injection Ht as <-.
  - destruct (s =? "") eqn:E.
    + apply String.eqb_eq in E. subst s. apply contains_empty.
    + apply contains_suffix.
  - destruct (Js.message e =? "") eqn:E.
    + apply String.eqb_eq in E. rewrite E. apply contains_empty.
    + apply contains_suffix.
Qed.

Section FallbackProperties.

Import Router.

Variable Schema : Type.
Variable World : Type.
Variable executeWithRotation :
  ProviderConfig -> OpenAIChatRequest Schema -> Eff World ProviderResponse.
Variable request : OpenAIChatRequest Schema.

Let outcomes := rotationOutcomes Schema World executeWithRotation request.
Let loop := tryProviders Schema World executeWithRotation request.

(** One iteration starts exactly one rotation, in the current world, and
    either returns its successful response or carries its error on. *)
Lemma tryProvider_run (total i : nat) (config : ProviderConfig)
    (st : State World) :
  exists out,
    tryProvider Schema World executeWithRotation request total i config st
    = (Normal
         (let c := fst (executeWithRotation config request (world World st)) in
          if attemptFails c then Next (observedError c)
          else match c with
               | Normal r => Return r
               | Abrupt v => Next v
               end),
       mkState World
         (snd (executeWithRotation config request (world World st)))
         (invoked World st ++ [config])%list out).
Proof.
  unfold tryProvider, Js.bind, tryCatch, onConsole, zoom, consoleLog,
    consoleError, rotate, Js.ret.
  destruct st as [w inv out]. simpl.
  destruct (executeWithRotation config request w) as [[r|v] w']; simpl.
  - destruct (success r); simpl; eexists; reflexivity.
  - eexists; reflexivity.
Qed.

Lemma outcomes_cons (config : ProviderConfig) (rest : list ProviderConfig)
    (w : World) :
  outcomes (config :: rest) w
  = fst (executeWithRotation config request w)
      :: outcomes rest (snd (executeWithRotation config request w)).
Proof.
  unfold outcomes. simpl.
  now destruct (executeWithRotation config request w).
Qed.

Lemma loop_first_success (rest : list ProviderConfig) :
  forall (M total i : nat) (lastError : Js.Value) (st : State World)
         (r : ProviderResponse),
    forallb attemptFails (firstn M (outcomes rest (world World st))) = true ->
    nth_error (outcomes rest (world World st)) M = Some (Normal r) ->
    success r = true ->
    exists st',
      loop total i rest lastError st = (Normal r, st')
      /\ invoked World st' = (invoked World st ++ firstn (S M) rest)%list.
Proof.
  induction rest as [|config rest IH]; intros M total i lastError st r Hfail Hnth Hok.
  - destruct M; discriminate Hnth.
  - rewrite outcomes_cons in Hfail, Hnth.
    destruct (tryProvider_run total i config st) as [out Hrun].
    unfold loop. simpl. unfold Js.bind. rewrite Hrun. clear Hrun.
    destruct M as [|M]; simpl in Hfail, Hnth.
    + injection Hnth as Hc. rewrite Hc. simpl. rewrite Hok. simpl.
      eexists. split; [reflexivity|]. reflexivity.
    + apply andb_true_iff in Hfail. destruct Hfail as [Hc Hfail].
      cbv zeta. rewrite Hc.
      edestruct (IH M total (S i)
                   (observedError
                      (fst (executeWithRotation config request (world World st))))
                   (mkState World
                      (snd (executeWithRotation config request (world World st)))
                      (invoked World st ++ [config])%list out) r)
        as (st' & Hloop & Hinv); try eassumption.
      exists st'. split; [exact Hloop|].
      rewrite Hinv. simpl. now rewrite <- app_assoc.
Qed.

Lemma loop_all_failed (rest : list ProviderConfig) :
  forall (total i : nat) (lastError : Js.Value) (st : State World),
    forallb attemptFails (outcomes rest (world World st)) = true ->
    exists st',
      loop total i rest lastError st
      = (Normal (allProvidersFailed
                   (last (map observedError (outcomes rest (world World st)))
                         lastError)), st')
      /\ invoked World st' = (invoked World st ++ rest)%list.
Proof.
  induction rest as [|config rest IH]; intros total i lastError st Hfail.
  - exists st. split; [reflexivity|]. now rewrite app_nil_r.
  - rewrite outcomes_cons in Hfail |- *.
    destruct (tryProvider_run total i config st) as [out Hrun].
    unfold loop. simpl tryProviders. unfold Js.bind. rewrite Hrun. clear Hrun.
    simpl in Hfail. apply andb_true_iff in Hfail. destruct Hfail as [Hc Hfail].
    cbv zeta. rewrite Hc.
    edestruct (IH total (S i)
                 (observedError
                    (fst (executeWithRotation config request (world World st))))
                 (mkState World
                    (snd (executeWithRotation config request (world World st)))
                    (invoked World st ++ [config])%list out))
      as (st' & Hloop & Hinv); [exact Hfail|].
    exists st'. split.
    + fold loop. rewrite Hloop. simpl map. now rewrite last_cons.
    + rewrite Hinv. simpl. now rewrite <- app_assoc.
Qed.

(** What precedes the loop: resolution and one log line. *)
Lemma executeWithFallback_resolved (routes : RouteConfig) (path : string)
    (st : State World) (providers : list ProviderConfig) (out : Console) :
  getProvidersForRoute routes path (console World st) = (Normal providers, out) ->
  executeWithFallback Schema World executeWithRotation routes path request st
  = loop (length providers) 0 providers Null
      (mkState World (world World st) (invoked World st)
         (out ++ [Log ("[Router] Route " ++ path ++ " has "
                       ++ showNat (length providers)
                       ++ " provider(s) configured")])%list).
Proof.
  intros H. unfold executeWithFallback, Js.bind, onConsole, zoom.
  rewrite H. reflexivity.
Qed.

(** C1. When the rotations of the first [M] providers of the resolved list
    fail and that of provider [M+1] succeeds with [r], [executeWithFallback]
    returns [r], and the rotations it started are exactly those of the first
    [M+1] providers, in list order. *)
Theorem fallback_returns_first_success (routes : RouteConfig) (path : string)
    (st : State World) (providers : list ProviderConfig) (out : Console)
    (M : nat) (r : ProviderResponse) :
  getProvidersForRoute routes path (console World st) = (Normal providers, out) ->
  forallb attemptFails (firstn M (outcomes providers (world World st))) = true ->
  nth_error (outcomes providers (world World st)) M = Some (Normal r) ->
  success r = true ->
  exists st',
    executeWithFallback Schema World executeWithRotation routes path request st
    = (Normal r, st')
    /\ invoked World st' = (invoked World st ++ firstn (S M) providers)%list.
Proof.
  intros Hres Hfail Hnth Hok.
  rewrite (executeWithFallback_resolved _ _ _ _ _ Hres).
  match goal with |- context [loop _ _ _ _ ?s] => set (st0 := s) end.
  destruct (loop_first_success providers M (length providers) 0 Null st0 r
              Hfail Hnth Hok) as (st' & Hloop & Hinv).
  exists st'. split; assumption.
Qed.

(** C2. When the rotation of every provider of the resolved list fails, by
    returning a failure or by throwing, [executeWithFallback] returns
    normally a failure with status 500, which is not 404, whose message
    starts with the aggregate prefix and contains the text of the error of
    the last rotation; every provider was tried, in order. *)
Theorem fallback_all_failed (routes : RouteConfig) (path : string)
    (st : State World) (providers : list ProviderConfig) (out : Console) :
  getProvidersForRoute routes path (console World st) = (Normal providers, out) ->
  forallb attemptFails (outcomes providers (world World st)) = true ->
  exists st' detail,
    executeWithFallback Schema World executeWithRotation routes path request st
    = (Normal (mkProviderResponse false None None
                 (Some ("All providers failed. Last error: " ++ detail))
                 (Some 500%Z)), st')
    /\ Some 500%Z <> Some 404%Z
    /\ invoked World st' = (invoked World st ++ providers)%list
    /\ forall earlier lastOutcome t,
         outcomes providers (world World st) = (earlier ++ [lastOutcome])%list ->
         errorText (observedError lastOutcome) = Some t ->
         contains ("All providers failed. Last error: " ++ detail) t.
Proof.
  intros Hres Hfail.
  rewrite (executeWithFallback_resolved _ _ _ _ _ Hres).
  match goal with |- context [loop _ _ _ _ ?s] => set (st0 := s) end.
  destruct (loop_all_failed providers (length providers) 0 Null st0 Hfail)
    as (st' & Hloop & Hinv).
  exists st'. eexists. split; [rewrite Hloop; reflexivity|].
  split; [discriminate|]. split; [exact Hinv|].
  intros earlier lastOutcome t Hlast Htext. rewrite lastError_detail.
  change (world World st0) with (world World st).
  rewrite Hlast, map_app. simpl map. rewrite last_last.
  rewrite <- lastError_detail.
  destruct (allProvidersFailed_embeds _ _ Htext) as (text & Herr & Hin).
  simpl in Herr. injection Herr as <-. exact Hin.
Qed.

(** C10. When the path resolves to the empty provider list,
    [executeWithFallback] starts no rotation, leaves the outside world as it
    is, and returns the failure with the message
    [All providers failed. Last error: Unknown error] and status 500. *)
Theorem fallback_empty_provider_list (routes : RouteConfig) (path : string)
    (st : State World) (out : Console) :
  getProvidersForRoute routes path (console World st) = (Normal [], out) ->
  exists st',
    executeWithFallback Schema World executeWithRotation routes path request st
    = (Normal (mkProviderResponse false None None
                 (Some "All providers failed. Last error: Unknown error")
                 (Some 500%Z)), st')
    /\ invoked World st' = invoked World st
    /\ world World st' = world World st.
Proof.
  intros Hres. rewrite (executeWithFallback_resolved _ _ _ _ _ Hres).
  eexists. split; [reflexivity|]. split; reflexivity.
Qed.

End FallbackProperties.

(** C1, on a chain of four providers of which the third is the first to
    succeed: the fourth is not started. *)
Lemma fallback_returns_first_success_witness :
  exists st',
    Router.executeWithFallback unit nat Samples.rotation Samples.chainRoutes
      "/chain" Samples.request Samples.start
    = (Normal (mkProviderResponse true None None None None), st')
    /\ Router.invoked nat st'
       = [Samples.providerA; Samples.providerB; Samples.providerC].
Proof.
  apply (fallback_returns_first_success unit nat Samples.rotation
           Samples.request Samples.chainRoutes "/chain" Samples.start
           [Samples.providerA; Samples.providerB; Samples.providerC;
            Samples.providerA] [] 2);
    reflexivity.
Defined.

(** C2, on a route whose first provider returns a failure and whose second
    provider throws. *)
Lemma fallback_all_failed_witness :
  exists st' detail,
    Router.executeWithFallback unit nat Samples.rotation Samples.failingRoutes
      "/down" Samples.request Samples.start
    = (Normal (mkProviderResponse false None None
                 (Some ("All providers failed. Last error: " ++ detail))
                 (Some 500%Z)), st')
    /\ Some 500%Z <> Some 404%Z
    /\ Router.invoked nat st' = [Samples.providerA; Samples.providerB]
    /\ forall earlier lastOutcome t,
         Router.rotationOutcomes unit nat Samples.rotation Samples.request
           [Samples.providerA; Samples.providerB] 0
         = (earlier ++ [lastOutcome])%list ->
         Router.errorText (Router.observedError lastOutcome) = Some t ->
         Router.contains ("All providers failed. Last error: " ++ detail) t.
Proof.
  apply (fallback_all_failed unit nat Samples.rotation Samples.request
           Samples.failingRoutes "/down" Samples.start
           [Samples.providerA; Samples.providerB] []);
    reflexivity.
Defined.

(** C10, on a route configured with an empty provider list. *)
Lemma fallback_empty_provider_list_witness :
  exists st',
    Router.executeWithFallback unit nat Samples.rotation
      Samples.emptyListRoutes "/none" Samples.request Samples.start
    = (Normal (mkProviderResponse false None None
                 (Some "All providers failed. Last error: Unknown error")
                 (Some 500%Z)), st')
    /\ Router.invoked nat st' = Router.invoked nat Samples.start
    /\ Router.world nat st' = Router.world nat Samples.start.
Proof.
  apply (fallback_empty_provider_list unit nat Samples.rotation
           Samples.request Samples.emptyListRoutes "/none" Samples.start []).
  reflexivity.
Defined.

(** ** Decimal renderings and the separator of synthesized ids *)

Lemma digits_no_separator (d : Decimal.uint) (a b : string) :
  NilEmpty.string_of_uint d <> a ++ String "_" b.
Proof.
  revert a. induction d; intros a H; simpl in H;
    destruct a as [|x a]; simpl in H;
    solve [ discriminate H
          | injection H as _ H; exact (IHd _ H) ].
Qed.

Lemma to_uint_nonnil (n : nat) : Nat.to_uint n <> Decimal.Nil.
Proof.
  intros H. pose proof (DecimalNat.Unsigned.of_to n) as E.
  rewrite H in E. simpl in E. subst n. discriminate H.
Qed.

Lemma showNat_digits (n : nat) :
  showNat n = NilEmpty.string_of_uint (Nat.to_uint n).
Proof.
  unfold showNat. pose proof (to_uint_nonnil n) as H.
  now destruct (Nat.to_uint n).
Qed.

Lemma showNat_no_separator (n : nat) (a b : string) :
  showNat n <> a ++ String "_" b.
Proof. rewrite showNat_digits. apply digits_no_separator. Qed.

Lemma showNat_inj (i j : nat) : showNat i = showNat j -> i = j.
Proof.
  unfold showNat. intros H.
  apply (f_equal NilZero.uint_of_string) in H.
  rewrite !NilZero.usu in H by apply to_uint_nonnil.
  injection H as H. now apply DecimalNat.Unsigned.to_uint_inj.
Qed.

(** What follows the last separator of a string is determined by it. *)
Lemma after_last_separator (a c b d : string) :
  (forall x y, b <> x ++ String "_" y) ->
  (forall x y, d <> x ++ String "_" y) ->
  a ++ String "_" b = c ++ String "_" d -> b = d.
Proof.
  intros Hb Hd. revert c.
  induction a as [|x a IH]; intros [|y c] H; simpl in H.
  - now injection H.
  - injection H as _ H. now apply Hb in H.
  - injection H as _ H. symmetry in H. now apply Hd in H.
  - injection H as _ H. now apply (IH c).
Qed.

(** Two ids of the form [call_<timestamp>_<index>] with different indices
    differ, whatever the timestamps. *)
Lemma call_id_inj (t t' : Z) (i j : nat) :
  "call_" ++ showZ t ++ "_" ++ showNat i
  = "call_" ++ showZ t' ++ "_" ++ showNat j ->
  i = j.
Proof.
  intros H. apply showNat_inj.
  apply (after_last_separator ("call_" ++ showZ t) ("call_" ++ showZ t')).
  - apply showNat_no_separator.
  - apply showNat_no_separator.
  - rewrite !append_assoc. exact H.
Qed.

(** ** The Cloudflare AI adapter *)

Section AdapterProperties.

Import CloudflareAI.

Variable Json : Type.
Variable JSON_stringify : Json -> string.
Variable emptySchema : Json.
Variable dateNow : nat -> Z.
Variable decode : list Byte.byte -> string.
Variable aiBinding : option (string -> Params Json -> Completion (CfResult Json)).
Variable handleError : Js.Value -> string -> ProviderResponse.

Let convertFrom := convertToolCallsFrom Json JSON_stringify dateNow.
Let convert := convertToolCalls Json JSON_stringify dateNow.
Let nonStream := handleNonStream Json JSON_stringify dateNow aiBinding.
Let forward := forwardChunk Json JSON_stringify dateNow decode.
Let reads := readLoop Json JSON_stringify dateNow decode.
Let streamed := handleStream Json JSON_stringify dateNow decode aiBinding.
Let chatWith :=
  chat Json JSON_stringify emptySchema dateNow decode aiBinding handleError.

(** A batch converts call by call: every id has the form
    [call_<timestamp>_<index>] with its position as index, the ids are
    pairwise distinct, and the console is left alone. *)
Lemma convertFrom_run (cfToolCalls : list (CfToolCall Json)) :
  forall (index : nat) (st : State),
  exists converted st',
    convertFrom index cfToolCalls st = (Normal converted, st')
    /\ console st' = console st
    /\ length converted = length cfToolCalls
    /\ (forall id, In id (map tc_id converted) ->
          exists t j, index <= j
                      /\ id = "call_" ++ showZ t ++ "_" ++ showNat j)
    /\ NoDup (map tc_id converted).
Proof.
  induction cfToolCalls as [|call rest IH]; intros index st.
  - exists [], st. repeat split; try reflexivity.
    + intros id [].
    + constructor.
  - destruct (IH (S index) (mkState (S (ticks st)) (console st)))
      as (others & st' & Hrun & Hcons & Hlen & Hids & Hnodup).
    eexists (_ :: others), st'.
    split; [|split; [|split; [|split]]].
    + unfold convertFrom. simpl. unfold Js.bind, convertToolCall, now, Js.ret.
      simpl. fold convertFrom. rewrite Hrun. reflexivity.
    + exact Hcons.
    + simpl. now rewrite Hlen.
    + intros id [<-|Hin].
      * exists (dateNow (ticks st)), index. split; [lia | reflexivity].
      * destruct (Hids id Hin) as (t & j & Hj & ->).
        exists t, j. split; [lia | reflexivity].
    + simpl. constructor; [|exact Hnodup].
      intros Hin. destruct (Hids _ Hin) as (t & j & Hj & Heq).
      apply call_id_inj in Heq. lia.
Qed.

(** What [handleNonStream] returns once the binding has resolved. *)
Lemma nonStream_resolved (model : string) (params : Params Json)
    (binding : string -> Params Json -> Completion (CfResult Json))
    (result : CfResult Json) (st : State) :
  aiBinding = Some binding ->
  binding model params = Normal result ->
  exists finalMessage reason st',
    nonStream model params st
    = (Normal (succeedWith
                 {| response_model := model;
                    choices := [ {| index := 0;
                                    message := finalMessage;
                                    finish_reason := reason |} ] |}), st')
    /\ role finalMessage = assistant
    /\ match presentToolCalls Json result with
       | Some cfToolCalls =>
           exists converted,
             convert cfToolCalls st = (Normal converted, st')
             /\ content finalMessage = None
             /\ tool_calls finalMessage = Some converted
             /\ reason = "tool_calls"
       | None =>
           st' = st
           /\ content finalMessage = Some (extractContent Json result)
           /\ tool_calls finalMessage = None
           /\ reason = "stop"
       end.
Proof.
  intros Hb Hrun. unfold nonStream, handleNonStream, run, Js.bind.
  rewrite Hb, Hrun.
  destruct (presentToolCalls Json result) as [cfToolCalls|] eqn:P.
  - unfold attachToolCalls, Js.bind. cbn [choices createOpenAIResponse].
    destruct (convertFrom_run cfToolCalls 0 st)
      as (converted & st' & Hconv & _).
    unfold convertFrom in Hconv. unfold convertToolCalls. rewrite Hconv.
    eexists _, _, st'. split; [reflexivity|]. split; [reflexivity|].
    exists converted. unfold convert, convertToolCalls.
    repeat split; try reflexivity. exact Hconv.
  - eexists _, _, st. split; [reflexivity|]. now repeat split.
Qed.

(** [handleNonStream] returns normally only if the binding is present and
    resolves. *)
Lemma nonStream_normal (model : string) (params : Params Json) (st st' : State)
    (r : ProviderResponse) :
  nonStream model params st = (Normal r, st') ->
  exists binding result,
    aiBinding = Some binding /\ binding model params = Normal result.
Proof using Json JSON_stringify dateNow aiBinding.
  clear chatWith streamed.
  unfold nonStream, handleNonStream, run, Js.bind, Js.throw.
  case aiBinding as [binding|]; [|discriminate].
  intros H. exists binding.
  destruct (binding model params) as [result|thrown]; [|discriminate].
  now exists result.
Qed.



(** *** Streaming *)

Lemma contentChunks_cons (isFirst : bool) (f : Frame) (rest : list Frame) :
  contentChunks isFirst [f] = true ->
  contentChunks false rest = true ->
  contentChunks isFirst (f :: rest) = true.
Proof.
  destruct f as [[[r c tc] m [reason|]]|text]; simpl; try discriminate.
  now destruct r as [[]|], isFirst.
Qed.

(** Content chunks contain neither a terminal chunk nor the sentinel. *)
Lemma contentChunks_plain (body : list Frame) :
  forall isFirst,
    contentChunks isFirst body = true ->
    forallb (fun f => negb (isTerminal f) && negb (isDone f)) body = true.
Proof.
  induction body as [|[[d m [reason|]]|text] body IH]; intros isFirst;
    simpl; try discriminate; [reflexivity|].
  destruct (delta_role d) as [[]|], isFirst; try discriminate; apply IH.
Qed.

Lemma contentChunks_first (f : Frame) (body rest : list Frame) :
  contentChunks true (f :: body) = true ->
  firstChunkHasRole ((f :: body) ++ rest) = true.
Proof.
  destruct f as [[d m [reason|]]|text]; simpl; try discriminate.
  unfold hasAssistantRole. now destruct (delta_role d) as [[]|].
Qed.

(** One iteration: a chunk that cannot be parsed throws before anything is
    written; one whose text is empty writes nothing; any other writes one
    content chunk, which carries the tool calls when there are some. *)
Lemma forward_run (model : string) (isFirst : bool) (value : CfValue Json)
    (t : Task) :
  match parseChunk Json decode value with
  | Abrupt fault => forward model isFirst value t = (Abrupt fault, t)
  | Normal (text, calls) =>
      match calls with
      | Some (call :: rest) =>
          exists converted st',
            convert (call :: rest) (task_state t) = (Normal converted, st')
            /\ forward model isFirst value t
               = (Normal false,
                  mkTask st'
                    (written t
                     ++ [createStreamChunk
                           (mkDelta (roleIfFirst isFirst) None (Some converted))
                           model None])%list
                    (writer_closed t))
      | _ =>
          forward model isFirst value t
          = if text =? "" then (Normal isFirst, t)
            else (Normal false,
                  mkTask (task_state t)
                    (written t
                     ++ [createStreamChunk
                           (mkDelta (roleIfFirst isFirst) (Some text) None)
                           model None])%list
                    (writer_closed t))
      end
  end.
Proof.
  unfold forward, forwardChunk, Js.bind.
  destruct (parseChunk Json decode value) as [[text calls]|fault];
    [|reflexivity].
  cbn [fst snd].
  destruct calls as [[|call rest]|].
  - destruct (text =? ""); reflexivity.
  - destruct (convertFrom_run (call :: rest) 0 (task_state t))
      as (converted & st' & Hconv & _).
    exists converted, st'. unfold convert, convertToolCalls.
    unfold convertFrom in Hconv. split; [exact Hconv|].
    unfold onState, zoom, convertToolCalls. rewrite Hconv. reflexivity.
  - destruct (text =? ""); reflexivity.
Qed.

(** The summary of one iteration that the loop needs. *)
Lemma forward_summary (model : string) (isFirst : bool) (value : CfValue Json)
    (t : Task) (parsed : string * option (list (CfToolCall Json))) :
  parseChunk Json decode value = Normal parsed ->
  exists body st',
    forward model isFirst value t
    = (Normal (match body with [] => isFirst | _ => false end),
       mkTask st' (written t ++ body)%list (writer_closed t))
    /\ console st' = console (task_state t)
    /\ contentChunks isFirst body = true
    /\ length body = (if chunkText Json decode value =? "" then 0 else 1)
    /\ Forall (fun f => distinctIds (frameToolCalls f)) body.
Proof.
  intros Hparse. pose proof (forward_run model isFirst value t) as Hrun.
  rewrite Hparse in Hrun. destruct parsed as [text calls].
  assert (Htext : chunkText Json decode value = text
                  /\ (forall call rest, calls = Some (call :: rest) ->
                        (text =? "") = false)).
  { destruct value as [s|[resp|] cs|bytes]; simpl in Hparse.
    - injection Hparse as <- <-. split; [reflexivity | discriminate].
    - destruct (resp =? "") eqn:E; [discriminate|].
      injection Hparse as <- <-. split; [reflexivity | intros; exact E].
    - discriminate.
    - injection Hparse as <- <-. split; [reflexivity | discriminate]. }
  destruct Htext as [-> Hcalls].
  assert (Hplain :
            forward model isFirst value t
            = (if text =? "" then (Normal isFirst, t)
               else (Normal false,
                     mkTask (task_state t)
                       (written t
                        ++ [createStreamChunk
                              (mkDelta (roleIfFirst isFirst) (Some text) None)
                              model None])%list
                       (writer_closed t))) ->
            exists body st',
              forward model isFirst value t
              = (Normal (match body with [] => isFirst | _ => false end),
                 mkTask st' (written t ++ body)%list (writer_closed t))
              /\ console st' = console (task_state t)
              /\ contentChunks isFirst body = true
              /\ length body = (if text =? "" then 0 else 1)
              /\ Forall (fun f => distinctIds (frameToolCalls f)) body).
  { intros ->. destruct (text =? "").
    - exists [], (task_state t). rewrite app_nil_r. destruct t.
      now repeat split.
    - eexists [_], (task_state t). repeat split.
      + now destruct isFirst.
      + repeat constructor. }
  destruct calls as [[|call rest]|]; try (apply Hplain; exact Hrun).
  destruct Hrun as (converted & st' & Hconv & Hrun).
  destruct (convertFrom_run (call :: rest) 0 (task_state t))
    as (converted' & st'' & Hconv' & Hcons & _ & _ & Hnodup).
  unfold convert, convertToolCalls in Hconv. unfold convertFrom in Hconv'.
  rewrite Hconv in Hconv'. injection Hconv' as <- <-.
  eexists [_], st'. rewrite (Hcalls call rest eq_refl).
  split; [exact Hrun|]. split; [exact Hcons|].
  split; [now destruct isFirst|]. split; [reflexivity|].
  constructor; [exact Hnodup | constructor].
Qed.

(** The loop writes content chunks only, and ends as the upstream does:
    normally when it is exhausted, by the first fault otherwise. *)
Lemma reads_run (ending : ReadEnd) (chunks : list (CfValue Json)) :
  forall (model : string) (isFirst : bool) (t : Task),
  exists body st',
    reads model isFirst chunks ending t
    = (match firstFault Json decode chunks ending with
       | None => Normal tt
       | Some fault => Abrupt fault
       end,
       mkTask st' (written t ++ body)%list (writer_closed t))
    /\ console st' = console (task_state t)
    /\ contentChunks isFirst body = true
    /\ Forall (fun f => distinctIds (frameToolCalls f)) body.
Proof.
  induction chunks as [|value rest IH]; intros model isFirst t.
  - exists [], (task_state t). rewrite app_nil_r. destruct t.
    split; [|now repeat split]. simpl. now destruct ending.
  - simpl firstFault.
    destruct (parseChunk Json decode value) as [parsed|fault] eqn:Hparse.
    + destruct (forward_summary model isFirst value t parsed Hparse)
        as (body & st1 & Hfwd & Hcons & Hbody & Hlen & Hids).
      unfold reads. simpl readLoop. unfold Js.bind.
      unfold forward in Hfwd. rewrite Hfwd.
      destruct (IH model (match body with [] => isFirst | _ => false end)
                   (mkTask st1 (written t ++ body)%list (writer_closed t)))
        as (body' & st' & Hrest & Hcons' & Hbody' & Hids').
      unfold reads in Hrest. rewrite Hrest.
      exists (body ++ body')%list, st'. simpl written. simpl writer_closed.
      rewrite app_assoc. split; [reflexivity|].
      split; [simpl in Hcons'; congruence|].
      split; [|apply Forall_app; now split].
      destruct body as [|f [|g body]].
      * exact Hbody'.
      * now apply contentChunks_cons.
      * destruct (chunkText Json decode value =? ""); discriminate Hlen.
    + pose proof (forward_run model isFirst value t) as Hfwd.
      rewrite Hparse in Hfwd.
      unfold reads. simpl readLoop. unfold Js.bind.
      unfold forward in Hfwd. rewrite Hfwd.
      exists [], (task_state t). rewrite app_nil_r. destruct t.
      now repeat split.
Qed.

Lemma finishReasonFor_request (request : OpenAIChatRequest Json) :
  finishReasonFor Json (buildParams Json emptySchema request)
  = if declaresTools Json request then "tool_calls" else "stop".
Proof.
  unfold finishReasonFor, buildParams, declaresTools. simpl.
  now destruct (tools request) as [[|tool0 rest]|].
Qed.

(** A streaming request with the binding present is handled by
    [handleStream]. *)
Lemma chat_streams (model : string) (request : OpenAIChatRequest Json)
    (apiKey : string)
    (binding : string -> Params Json -> Completion (CfResult Json))
    (st : State) :
  aiBinding = Some binding ->
  stream request = Some true ->
  chatWith model request apiKey st
  = streamed model (buildParams Json emptySchema request) st.
Proof.
  intros Hb Hs. unfold chatWith, streamed, chat.
  rewrite Hb. unfold Js.bind, tryCatch, Js.ret.
  unfold buildParams at 1. cbn [p_stream]. rewrite Hs. reflexivity.
Qed.

(** What [handleStream] returns once the binding has resolved to a stream:
    a success whose stream is closed and holds the content chunks, then the
    terminal chunk and the sentinel if consumption reached the end, or
    nothing more, with the fault logged, if it did not. *)
Lemma streamed_resolved (model : string) (params : Params Json)
    (binding : string -> Params Json -> Completion (CfResult Json))
    (upstream : Upstream Json) (st : State) :
  aiBinding = Some binding ->
  binding model params = Normal (Stream Json upstream) ->
  exists body st',
    streamed model params st
    = (Normal
         {| success := true;
            response := None;
            stream_handle :=
              Some (mkReadable
                      (match firstFault Json decode (up_chunks Json upstream)
                                        (up_end Json upstream) with
                       | None =>
                           body ++ [createStreamChunk (mkDelta None None None)
                                      model (Some (finishReasonFor Json params));
                                    LiteralFrame doneSentinel]
                       | Some _ => body
                       end)%list true);
            error := None;
            statusCode := None |}, st')
    /\ contentChunks true body = true
    /\ console st'
       = match firstFault Json decode (up_chunks Json upstream)
                          (up_end Json upstream) with
         | None => console st
         | Some fault => (console st ++ [ErrorLog "Stream error:" fault])%list
         end
    /\ Forall (fun f => distinctIds (frameToolCalls f)) body.
Proof.
  intros Hb Hrun. unfold streamed, handleStream, run, Js.bind.
  rewrite Hb, Hrun.
  destruct (reads_run (up_end Json upstream) (up_chunks Json upstream) model
              true (mkTask st [] false))
    as (body & st1 & Hreads & Hcons & Hbody & Hids).
  unfold reads in Hreads.
  unfold forwardStream, tryFinally, tryCatch, Js.bind. rewrite Hreads.
  simpl in Hcons.
  destruct (firstFault Json decode (up_chunks Json upstream)
              (up_end Json upstream)) as [fault|].
  - eexists body, _. simpl. split; [reflexivity|].
    split; [exact Hbody|]. split; [|exact Hids]. simpl. now rewrite Hcons.
  - exists body, st1. simpl. rewrite <- app_assoc. simpl.
    split; [reflexivity|]. now repeat split.
Qed.

(** C4 (amended). For a streaming request whose upstream is consumed to its
    end without a fault, the stream handed back is closed and holds content
    chunks, then one terminal chunk with an empty delta and the finish
    reason [tool_calls] if the request declares a tool and [stop] if not,
    then the sentinel; no earlier frame carries a finish reason or is the
    sentinel; the first content chunk has the assistant role, the later ones
    none. *)
Theorem stream_frames_when_consumed (model : string)
    (request : OpenAIChatRequest Json) (apiKey : string)
    (binding : string -> Params Json -> Completion (CfResult Json))
    (upstream : Upstream Json) (st : State) :
  aiBinding = Some binding ->
  stream request = Some true ->
  binding model (buildParams Json emptySchema request)
  = Normal (Stream Json upstream) ->
  firstFault Json decode (up_chunks Json upstream) (up_end Json upstream)
  = None ->
  exists body terminal st',
    chatWith model request apiKey st
    = (Normal
         {| success := true;
            response := None;
            stream_handle :=
              Some (mkReadable
                      (body ++ [ChunkFrame terminal;
                                LiteralFrame doneSentinel])%list true);
            error := None;
            statusCode := None |}, st')
    /\ contentChunks true body = true
    /\ forallb (fun f => negb (isTerminal f) && negb (isDone f)) body = true
    /\ chunk_delta terminal = mkDelta None None None
    /\ chunk_finish_reason terminal
       = Some (if declaresTools Json request then "tool_calls" else "stop")
    /\ (body <> [] ->
        firstChunkHasRole
          (body ++ [ChunkFrame terminal; LiteralFrame doneSentinel])%list
        = true).
Proof.
  intros Hb Hs Hrun Hfault.
  rewrite (chat_streams model request apiKey binding st Hb Hs).
  destruct (streamed_resolved model _ binding upstream st Hb Hrun)
    as (body & st' & Hret & Hbody & _ & _).
  rewrite Hfault in Hret.
  eexists body, _, st'. split; [exact Hret|].
  split; [exact Hbody|].
  split; [exact (contentChunks_plain body true Hbody)|].
  split; [reflexivity|].
  split; [simpl; now rewrite finishReasonFor_request|].
  intros Hne. destruct body as [|f body]; [contradiction|].
  now apply contentChunks_first.
Qed.

(** [handleStream] returns normally only if the binding is present and
    resolves. *)
Lemma streamed_normal (model : string) (params : Params Json) (st st' : State)
    (r : ProviderResponse) :
  streamed model params st = (Normal r, st') ->
  exists binding result,
    aiBinding = Some binding /\ binding model params = Normal result.
Proof using Json JSON_stringify dateNow decode aiBinding.
  clear chatWith nonStream.
  unfold streamed, handleStream, run, Js.bind, Js.throw.
  case aiBinding as [binding|]; [|discriminate].
  intros H. exists binding.
  destruct (binding model params) as [result|thrown]; [|discriminate].
  now exists result.
Qed.

(** The ids that one call of [convertToolCalls] synthesizes are pairwise
    distinct whatever the clock returns; hence the ids of the tool calls of
    every non-streaming response are pairwise distinct, and so are the ids
    of the tool calls of every single chunk of a streamed response. *)
Theorem tool_call_ids_distinct :
  (forall cfToolCalls st,
      exists converted st',
        convert cfToolCalls st = (Normal converted, st')
        /\ length converted = length cfToolCalls
        /\ distinctIds converted)
  /\ (forall model params st r st',
        nonStream model params st = (Normal r, st') ->
        distinctIds (responseToolCalls r))
  /\ (forall model params st r st' f,
        streamed model params st = (Normal r, st') ->
        In f (framesOf r) ->
        distinctIds (frameToolCalls f)).
Proof using Json JSON_stringify dateNow decode aiBinding.
  split; [|split].
  - intros cfToolCalls st.
    destruct (convertFrom_run cfToolCalls 0 st)
      as (converted & st' & Hconv & _ & Hlen & _ & Hnodup).
    now exists converted, st'.
  - intros model params st r st' Hret.
    destruct (nonStream_normal _ _ _ _ _ Hret) as (binding & result & Hb & Hrun).
    destruct (nonStream_resolved model params binding result st Hb Hrun)
      as (finalMessage & reason & st1 & Hret' & _ & Hshape).
    rewrite Hret' in Hret. injection Hret as <- <-.
    unfold distinctIds, responseToolCalls, framesOf. simpl.
    rewrite !app_nil_r.
    destruct (presentToolCalls Json result) as [cfToolCalls|].
    + destruct Hshape as (converted & Hconv & _ & -> & _).
      destruct (convertFrom_run cfToolCalls 0 st)
        as (converted' & st'' & Hconv' & _ & _ & _ & Hnodup).
      unfold convert, convertToolCalls in Hconv.
      unfold convertFrom in Hconv'.
      rewrite Hconv in Hconv'. now injection Hconv' as <- _.
    + destruct Hshape as (_ & _ & -> & _). constructor.
  - intros model params st r st' f Hret Hin.
    destruct (streamed_normal _ _ _ _ _ Hret) as (binding & result & Hb & Hrun).
    destruct result as [value|upstream].
    + unfold streamed, handleStream, run, Js.bind in Hret.
      rewrite Hb, Hrun in Hret. injection Hret as <- _.
      destruct Hin.
    + destruct (streamed_resolved model params binding upstream st Hb Hrun)
        as (body & st1 & Hret' & _ & _ & Hids).
      rewrite Hret' in Hret. injection Hret as <- _.
      unfold framesOf in Hin. simpl in Hin.
      rewrite Forall_forall in Hids.
      destruct (firstFault Json decode (up_chunks Json upstream)
                  (up_end Json upstream)).
      * now apply Hids.
      * apply in_app_or in Hin. destruct Hin as [Hin|[<-|[<-|[]]]].
        -- now apply Hids.
        -- constructor.
        -- constructor.
Qed.

End AdapterProperties.


(** C5 as stated fails: for the upstream chunk that is the empty string no
    canonical chunk is written. *)
Lemma chunk_forwarding_counterexample :
  length (CloudflareAI.chunkFrames unit Samples.stringify Samples.clock
            Samples.decodeBytes "@cf/meta/llama" true
            (CloudflareAI.CfString unit "") Samples.adapterStart)
  <> 1.
Proof. vm_compute. discriminate. Qed.

(** C4, on a request that declares a tool and an upstream of four chunks. *)
Lemma stream_frames_when_consumed_witness :
  exists body terminal st',
    Samples.adapterChat (CloudflareAI.Stream unit Samples.mixedUpstream)
      Samples.toolStreamRequest
    = (Normal
         {| success := true;
            response := None;
            stream_handle :=
              Some (mkReadable
                      (body ++ [ChunkFrame terminal;
                                LiteralFrame CloudflareAI.doneSentinel])%list
                      true);
            error := None;
            statusCode := None |}, st')
    /\ CloudflareAI.contentChunks true body = true
    /\ forallb (fun f => negb (CloudflareAI.isTerminal f)
                         && negb (CloudflareAI.isDone f)) body = true
    /\ chunk_delta terminal = mkDelta None None None
    /\ chunk_finish_reason terminal
       = Some (if CloudflareAI.declaresTools unit Samples.toolStreamRequest
               then "tool_calls" else "stop")
    /\ (body <> [] ->
        CloudflareAI.firstChunkHasRole
          (body ++ [ChunkFrame terminal;
                    LiteralFrame CloudflareAI.doneSentinel])%list
        = true).
Proof.
  apply (stream_frames_when_consumed unit Samples.stringify tt Samples.clock
           Samples.decodeBytes
           (Samples.bindingOf (CloudflareAI.Stream unit Samples.mixedUpstream))
           Samples.failWith "@cf/meta/llama" Samples.toolStreamRequest
           "unused-key"
           (fun _ _ => Normal (CloudflareAI.Stream unit Samples.mixedUpstream))
           Samples.mixedUpstream Samples.adapterStart);
    reflexivity.
Defined.

(** C4 as stated fails: when the upstream ends at once, the first chunk
    emitted is the terminal one, whose delta is empty; and when a read of
    the upstream is rejected, no chunk with a finish reason and no sentinel
    is emitted at all. *)
Lemma stream_first_chunk_counterexample :
  (exists r st',
      Samples.adapterChat (CloudflareAI.Stream unit Samples.emptyUpstream)
        Samples.streamRequest
      = (Normal r, st')
      /\ CloudflareAI.firstChunkHasRole (CloudflareAI.framesOf r) = false)
  /\ (exists r st',
        Samples.adapterChat (CloudflareAI.Stream unit Samples.brokenUpstream)
          Samples.streamRequest
        = (Normal r, st')
        /\ existsb CloudflareAI.isTerminal (CloudflareAI.framesOf r) = false
        /\ existsb CloudflareAI.isDone (CloudflareAI.framesOf r) = false).
Proof.
  split.
  - eexists _, _. split; reflexivity.
  - eexists _, _. split; [reflexivity|]. split; reflexivity.
Qed.

(** C6 as stated fails: when the second read of the upstream is rejected,
    the caller holds a success whose stream is closed after one content
    chunk, which is neither a stream that ends with a terminal chunk and
    the sentinel nor a structured error. *)
Lemma stream_truncated_counterexample :
  exists r st',
    Samples.adapterChat (CloudflareAI.Stream unit Samples.brokenUpstream)
      Samples.streamRequest
    = (Normal r, st')
    /\ length (CloudflareAI.framesOf r) = 1
    /\ ~ CloudflareAI.coherentStream r
    /\ ~ CloudflareAI.structuredError r.
Proof.
  eexists _, _. split; [reflexivity|]. split; [reflexivity|]. split.
  - intros (readable & reason & Hs & _ & body & terminal & Hf & _).
    injection Hs as <-. simpl in Hf.
    apply (f_equal (@length Frame)) in Hf.
    rewrite length_app in Hf. simpl in Hf. lia.
  - intros [H _]. discriminate H.
Qed.

(** On the response built from two tool calls converted within the same
    millisecond. *)
Lemma tool_call_ids_distinct_witness :
  exists r st',
    CloudflareAI.handleNonStream unit Samples.stringify Samples.clock
      (Samples.bindingOf Samples.toolResult) "@cf/meta/llama"
      (CloudflareAI.buildParams unit tt Samples.request) Samples.adapterStart
    = (Normal r, st')
    /\ CloudflareAI.distinctIds (CloudflareAI.responseToolCalls r).
Proof.
  destruct (tool_call_ids_distinct unit Samples.stringify Samples.clock
              Samples.decodeBytes (Samples.bindingOf Samples.toolResult))
    as (_ & H & _).
  eexists _, _. split; [vm_compute; reflexivity|].
  eapply (H "@cf/meta/llama" (CloudflareAI.buildParams unit tt Samples.request)
            Samples.adapterStart).
  vm_compute. reflexivity.
Defined.

(** C9.  The ids of the tool calls of one response are to be pairwise
    distinct; [handleStream] converts every upstream chunk as a batch of its
    own, with positions counted from 0 again, so in a streamed response
    whose upstream sends two chunks with one tool call each, converted
    within the same millisecond, both tool calls get the id
    [call_1700000000000_0]. *)
Theorem stream_tool_call_ids_collide :
  exists r st',
    Samples.adapterChat (CloudflareAI.Stream unit Samples.twoCallUpstream)
      Samples.toolStreamRequest
    = (Normal r, st')
    /\ map tc_id (CloudflareAI.responseToolCalls r)
       = ["call_1700000000000_0"; "call_1700000000000_0"]
    /\ ~ CloudflareAI.distinctIds (CloudflareAI.responseToolCalls r).
Proof.
  eexists _, _. split; [reflexivity|]. split; [reflexivity|].
  unfold CloudflareAI.distinctIds.
  change (~ NoDup ["call_1700000000000_0"; "call_1700000000000_0"]).
  intros H. inversion H as [|x l Hnotin _]. apply Hnotin. now left.
Qed.

(* ------------------------------------------------------------------ *)
(** * Further properties of the router *)

Lemma get_In {V} (o : Js.Object V) (key : string) (v : V) :
  Js.get o key = Some v -> In (key, v) o.
Proof.
  unfold Js.get. destruct (find _ o) as [[k v']|] eqn:F; [|discriminate].
  intros [= <-]. apply find_some in F. destruct F as [Hin Hk].
  apply String.eqb_eq in Hk. simpl in Hk. now subst k.
Qed.

Lemma get_of_entry {V} (o : Js.Object V) (key : string) (v : V) :
  NoDup (map fst o) -> In (key, v) o -> Js.get o key = Some v.
Proof.
  unfold Js.get. induction o as [|[k w] o IH]; simpl; [intros _ []|].
  intros Hnd Hin. inversion Hnd as [|? ? Hnotin Hnd']; subst.
  destruct (k =? key) eqn:E.
  - apply String.eqb_eq in E. subst k. destruct Hin as [[= ->]|Hin].
    + reflexivity.
    + exfalso. apply Hnotin. apply in_map_iff. now exists (key, v).
  - destruct Hin as [[= -> _]|Hin].
    + now rewrite String.eqb_refl in E.
    + now apply IH.
Qed.

Lemma entries_In {V} (o : Js.Object V) (entry : string * V) :
  In entry (Js.entries o) -> In entry o.
Proof.
  unfold Js.entries. intros H. apply in_app_or in H. destruct H as [H|H].
  - apply in_map_iff in H. destruct H as ([i kv] & <- & H).
    now apply indexedEntries_key in H.
  - now apply filter_In in H.
Qed.

Section ResolutionFacts.

Import Router.

Variable routes : RouteConfig.

(** A route configured under a key that starts with a slash is found by
    the key itself and by the key without its slash, whatever other keys it
    is a prefix of or has as prefixes, and nothing is logged. *)
Theorem exact_route_resolved (key : string) (providers : list ProviderConfig) :
  NoDup (map fst routes) ->
  In (key, providers) routes ->
  startsWith key "/" = true ->
  (forall out, getProvidersForRoute routes key out = (Normal providers, out))
  /\ (forall rest out,
        key = "/" ++ rest ->
        startsWith rest "/" = false ->
        getProvidersForRoute routes rest out = (Normal providers, out)).
Proof.
  intros Hnd Hin Hslash.
  pose proof (get_of_entry routes key providers Hnd Hin) as Hget.
  split.
  - intros out. unfold getProvidersForRoute, normalizePath. cbv zeta.
    now rewrite Hslash, Hget.
  - intros rest out Hkey Hrest. unfold getProvidersForRoute, normalizePath.
    cbv zeta. now rewrite Hrest, <- Hkey, Hget.
Qed.

(** Resolution returns a provider list that the table holds under some key,
    and throws only for the empty table: then it throws the [ProxyError]
    with status 404 that names the path as given, and logs nothing. *)
Theorem resolution_returns_configured_list (path : string) (out : Console) :
  match getProvidersForRoute routes path out with
  | (Normal providers, _) => exists key, In (key, providers) routes
  | (Abrupt thrown, out') =>
      routes = []
      /\ out' = out
      /\ thrown = ProxyError ("No providers configured for route: " ++ path) 404
  end.
Proof.
  unfold getProvidersForRoute. cbv zeta.
  destruct (Js.get routes (normalizePath path)) as [providers|] eqn:G.
  - exists (normalizePath path). now apply get_In.
  - destruct (find _ (Js.entries routes)) as [[key providers]|] eqn:F.
    + exists key. apply find_some in F. apply entries_In. exact (proj1 F).
    + unfold Js.values.
      destruct (Js.entries routes) as [|[key first] others] eqn:E.
      * apply entries_nil_iff in E. now subst routes.
      * simpl. exists key. apply entries_In. rewrite E. now left.
Qed.

End ResolutionFacts.

Lemma exact_route_resolved_witness :
  (forall out,
      Router.getProvidersForRoute Samples.prefixRoutes "/f" out
      = (Normal [Samples.providerB], out))
  /\ (forall rest out,
        "/f" = "/" ++ rest ->
        startsWith rest "/" = false ->
        Router.getProvidersForRoute Samples.prefixRoutes rest out
        = (Normal [Samples.providerB], out)).
Proof.
  apply (exact_route_resolved Samples.prefixRoutes "/f" [Samples.providerB]).
  - repeat constructor; simpl; intuition discriminate.
  - right. left. reflexivity.
  - reflexivity.
Defined.

Lemma resolution_abrupt (routes : RouteConfig) (path : string)
    (out out' : Console) (thrown : Js.Value) :
  Router.getProvidersForRoute routes path out = (Abrupt thrown, out') ->
  routes = []
  /\ out' = out
  /\ thrown
     = Router.ProxyError ("No providers configured for route: " ++ path) 404.
Proof.
  unfold Router.getProvidersForRoute. cbv zeta.
  destruct (Js.get routes (Router.normalizePath path)); [discriminate|].
  destruct (find _ (Js.entries routes)) as [[key providers]|];
    [discriminate|].
  unfold Js.values.
  destruct (Js.entries routes) as [|[key first] others] eqn:E;
    [|discriminate].
  apply entries_nil_iff in E. intros [= <- <-]. now subst routes.
Qed.

Lemma outcomes_dichotomy (l : list (Completion ProviderResponse)) :
  forallb Router.attemptFails l = true
  \/ exists M r,
       forallb Router.attemptFails (firstn M l) = true
       /\ nth_error l M = Some (Normal r)
       /\ success r = true.
Proof.
  induction l as [|c l IH]; [now left|].
  destruct (Router.attemptFails c) eqn:Hc.
  - destruct IH as [IH|(M & r & Hfail & Hnth & Hok)].
    + left. simpl. now rewrite Hc.
    + right. exists (S M), r. simpl. now rewrite Hc.
  - right. destruct c as [r|v]; [|discriminate]. simpl in Hc.
    apply negb_false_iff in Hc. now exists 0, r.
Qed.

Section FallbackFacts.

Import Router.

Variable Schema : Type.
Variable World : Type.
Variable executeWithRotation :
  ProviderConfig -> OpenAIChatRequest Schema -> Eff World ProviderResponse.
Variable request : OpenAIChatRequest Schema.

Let outcomes := rotationOutcomes Schema World executeWithRotation request.
Let loop := tryProviders Schema World executeWithRotation request.
Let fallback := executeWithFallback Schema World executeWithRotation.

(** [executeWithFallback] throws exactly when the route table is empty: the
    404 [ProxyError] of route resolution escapes it, before any rotation is
    started and before anything is logged; with a table that is not empty
    it returns a response whatever the rotations do. *)
Theorem fallback_throws_iff_no_routes (routes : RouteConfig) (path : string)
    (st : State World) :
  match fallback routes path request st with
  | (Normal _, _) => routes <> []
  | (Abrupt thrown, st') =>
      routes = []
      /\ thrown = ProxyError ("No providers configured for route: " ++ path) 404
      /\ st' = st
  end.
Proof.
  unfold fallback.
  destruct (getProvidersForRoute routes path (console World st))
    as [[providers|thrown] out] eqn:Hres.
  - rewrite (executeWithFallback_resolved Schema World executeWithRotation
               request routes path st providers out Hres).
    match goal with |- context [tryProviders _ _ _ _ _ _ _ _ ?s] =>
      set (st0 := s) end.
    destruct (outcomes_dichotomy (outcomes providers (world World st0)))
      as [Hall|(M & r & Hfail & Hnth & Hok)].
    + destruct (loop_all_failed Schema World executeWithRotation request
                  providers (length providers) 0 Null st0 Hall)
        as (st' & -> & _).
      intros ->. discriminate Hres.
    + destruct (loop_first_success Schema World executeWithRotation request
                  providers M (length providers) 0 Null st0 r Hfail Hnth Hok)
        as (st' & -> & _).
      intros ->. discriminate Hres.
  - destruct (resolution_abrupt _ _ _ _ _ Hres) as (-> & -> & ->).
    unfold executeWithFallback, Js.bind, onConsole, zoom.
    rewrite Hres. destruct st. now repeat split.
Qed.

(** After resolution [executeWithFallback] returns a response, never
    throws, and the response tells what happened: it is a success only if
    it is the response of a rotation that succeeded after all rotations
    before it had failed, and it is a failure only if every rotation
    failed, and is then the aggregate failure built from the last error. *)
Theorem fallback_outcome (routes : RouteConfig) (path : string)
    (st : State World) (providers : list ProviderConfig) (out : Console) :
  getProvidersForRoute routes path (console World st) = (Normal providers, out) ->
  exists r st',
    fallback routes path request st = (Normal r, st')
    /\ ((success r = true
         /\ exists M,
              forallb attemptFails
                (firstn M (outcomes providers (world World st))) = true
              /\ nth_error (outcomes providers (world World st)) M
                 = Some (Normal r)
              /\ invoked World st'
                 = (invoked World st ++ firstn (S M) providers)%list)
        \/ (success r = false
            /\ forallb attemptFails (outcomes providers (world World st)) = true
            /\ r = allProvidersFailed
                     (last (map observedError
                              (outcomes providers (world World st))) Null)
            /\ invoked World st' = (invoked World st ++ providers)%list)).
Proof.
  intros Hres. unfold fallback.
  rewrite (executeWithFallback_resolved Schema World executeWithRotation
             request routes path st providers out Hres).
  match goal with |- context [tryProviders _ _ _ _ _ _ _ _ ?s] =>
    set (st0 := s) end.
  destruct (outcomes_dichotomy (outcomes providers (world World st)))
    as [Hall|(M & r & Hfail & Hnth & Hok)].
  - destruct (loop_all_failed Schema World executeWithRotation request
                providers (length providers) 0 Null st0 Hall)
      as (st' & Hloop & Hinv).
    eexists _, st'. split; [exact Hloop|]. right.
    split; [reflexivity|]. split; [exact Hall|]. split; [reflexivity|].
    exact Hinv.
  - destruct (loop_first_success Schema World executeWithRotation request
                providers M (length providers) 0 Null st0 r Hfail Hnth Hok)
      as (st' & Hloop & Hinv).
    exists r, st'. split; [exact Hloop|]. left.
    split; [exact Hok|]. now exists M.
Qed.

(** When every rotation fails, the message of the aggregate failure is the
    fixed prefix followed by the text of the last error alone: the string a
    failed response carries, the message of what was thrown, the name of a
    thrown error without message, or [Unknown error] when the last error is
    absent or empty; the errors of earlier providers are not reported. *)
Theorem fallback_reports_last_error_only (routes : RouteConfig)
    (path : string) (st : State World) (providers : list ProviderConfig)
    (out : Console) (earlier : list (Completion ProviderResponse))
    (lastOutcome : Completion ProviderResponse) :
  getProvidersForRoute routes path (console World st) = (Normal providers, out) ->
  forallb attemptFails (outcomes providers (world World st)) = true ->
  outcomes providers (world World st) = (earlier ++ [lastOutcome])%list ->
  exists st',
    fallback routes path request st
    = (Normal (mkProviderResponse false None None
                 (Some ("All providers failed. Last error: "
                        ++ Observations.lastErrorText
                             (observedError lastOutcome)))
                 (Some 500%Z)), st').
Proof.
  intros Hres Hall Hlast. unfold fallback.
  rewrite (executeWithFallback_resolved Schema World executeWithRotation
             request routes path st providers out Hres).
  match goal with |- context [tryProviders _ _ _ _ _ _ _ _ ?s] =>
    set (st0 := s) end.
  destruct (loop_all_failed Schema World executeWithRotation request
              providers (length providers) 0 Null st0 Hall)
    as (st' & Hloop & _).
  exists st'. rewrite Hloop. f_equal.
  change (world World st0) with (world World st).
  unfold outcomes in Hlast. rewrite Hlast, map_app. simpl map.
  rewrite last_last. unfold allProvidersFailed.
  rewrite lastError_detail. reflexivity.
Qed.

End FallbackFacts.

Section FallbackTrace.

Import Router.

Variable Schema : Type.
Variable World : Type.
Variable executeWithRotation :
  ProviderConfig -> OpenAIChatRequest Schema -> Eff World ProviderResponse.
Variable request : OpenAIChatRequest Schema.

Let loop := tryProviders Schema World executeWithRotation request.
Let after := Observations.worldAfter Schema World executeWithRotation request.

(** One iteration runs one rotation and appends two entries to the
    console. *)
Lemma tryProvider_trace (total i : nat) (config : ProviderConfig)
    (st : State World) :
  exists iteration first second,
    tryProvider Schema World executeWithRotation request total i config st
    = (Normal iteration,
       mkState World
         (snd (executeWithRotation config request (world World st)))
         (invoked World st ++ [config])%list
         (console World st ++ [first; second])%list).
Proof.
  unfold tryProvider, Js.bind, tryCatch, onConsole, zoom, consoleLog,
    consoleError, rotate, Js.ret.
  destruct st as [w inv out]. simpl.
  destruct (executeWithRotation config request w) as [[r|v] w']; simpl.
  - destruct (success r); simpl; rewrite <- app_assoc;
      eexists _, _, _; reflexivity.
  - rewrite <- app_assoc. eexists _, _, _; reflexivity.
Qed.

Lemma loop_trace (rest : list ProviderConfig) :
  forall (total i : nat) (lastError : Js.Value) (st : State World),
  exists r st' k added,
    loop total i rest lastError st = (Normal r, st')
    /\ k <= length rest
    /\ invoked World st' = (invoked World st ++ firstn k rest)%list
    /\ world World st' = after (firstn k rest) (world World st)
    /\ console World st' = (console World st ++ added)%list
    /\ length added = 2 * k.
Proof.
  induction rest as [|config rest IH]; intros total i lastError st.
  - exists (allProvidersFailed lastError), st, 0, [].
    simpl. rewrite !app_nil_r. now repeat split.
  - destruct (tryProvider_trace total i config st)
      as (iteration & first & second & Hrun).
    unfold loop. simpl tryProviders. unfold Js.bind. rewrite Hrun.
    destruct iteration as [response|lastError'].
    + eexists response, _, 1, [first; second]. simpl.
      repeat split; try reflexivity. lia.
    + match goal with |- context [tryProviders _ _ _ _ _ _ _ _ ?s] =>
        set (st1 := s) end.
      destruct (IH total (S i) lastError' st1)
        as (r & st' & k & added & Hloop & Hk & Hinv & Hw & Hcons & Hlen).
      exists r, st', (S k), (first :: second :: added).
      split; [exact Hloop|]. split; [simpl; lia|].
      split; [rewrite Hinv; simpl; now rewrite <- app_assoc|].
      split; [rewrite Hw; reflexivity|].
      split; [rewrite Hcons; simpl; now rewrite <- app_assoc|].
      simpl. lia.
Qed.

(** The rotations that [executeWithFallback] starts are those of a prefix
    of the resolved list, each once and in list order; the outside world it
    leaves is the one after exactly those rotations; the console is only
    appended to, by the line that counts the providers and two entries for
    each rotation started. *)
Theorem fallback_trace (routes : RouteConfig) (path : string)
    (st : State World) (providers : list ProviderConfig) (out : Console) :
  getProvidersForRoute routes path (console World st) = (Normal providers, out) ->
  exists r st' k added,
    executeWithFallback Schema World executeWithRotation routes path request st
    = (Normal r, st')
    /\ k <= length providers
    /\ invoked World st' = (invoked World st ++ firstn k providers)%list
    /\ world World st' = after (firstn k providers) (world World st)
    /\ console World st'
       = (out ++ Log ("[Router] Route " ++ path ++ " has "
                      ++ showNat (length providers)
                      ++ " provider(s) configured") :: added)%list
    /\ length added = 2 * k.
Proof.
  intros Hres.
  rewrite (executeWithFallback_resolved Schema World executeWithRotation
             request routes path st providers out Hres).
  match goal with |- context [tryProviders _ _ _ _ _ _ _ _ ?s] =>
    set (st0 := s) end.
  destruct (loop_trace providers (length providers) 0 Null st0)
    as (r & st' & k & added & Hloop & Hk & Hinv & Hw & Hcons & Hlen).
  exists r, st', k, added. split; [exact Hloop|].
  split; [exact Hk|]. split; [exact Hinv|]. split; [exact Hw|].
  split; [|exact Hlen].
  rewrite Hcons. unfold st0. simpl. now rewrite <- app_assoc.
Qed.

End FallbackTrace.

Lemma fallback_outcome_witness :
  exists r st',
    Router.executeWithFallback unit nat Samples.rotation Samples.chainRoutes
      "/chain" Samples.request Samples.start = (Normal r, st')
    /\ ((success r = true
         /\ exists M,
              forallb Router.attemptFails
                (firstn M (Router.rotationOutcomes unit nat Samples.rotation
                             Samples.request
                             [Samples.providerA; Samples.providerB;
                              Samples.providerC; Samples.providerA] 0)) = true
              /\ nth_error (Router.rotationOutcomes unit nat Samples.rotation
                              Samples.request
                              [Samples.providerA; Samples.providerB;
                               Samples.providerC; Samples.providerA] 0) M
                 = Some (Normal r)
              /\ Router.invoked nat st'
                 = ([] ++ firstn (S M)
                            [Samples.providerA; Samples.providerB;
                             Samples.providerC; Samples.providerA])%list)
        \/ (success r = false
            /\ forallb Router.attemptFails
                 (Router.rotationOutcomes unit nat Samples.rotation
                    Samples.request
                    [Samples.providerA; Samples.providerB;
                     Samples.providerC; Samples.providerA] 0) = true
            /\ r = Router.allProvidersFailed
                     (last (map Router.observedError
                              (Router.rotationOutcomes unit nat Samples.rotation
                                 Samples.request
                                 [Samples.providerA; Samples.providerB;
                                  Samples.providerC; Samples.providerA] 0))
                           Null)
            /\ Router.invoked nat st'
               = ([] ++ [Samples.providerA; Samples.providerB;
                         Samples.providerC; Samples.providerA])%list)).
Proof.
  apply (fallback_outcome unit nat Samples.rotation Samples.request
           Samples.chainRoutes "/chain" Samples.start
           [Samples.providerA; Samples.providerB; Samples.providerC;
            Samples.providerA] []).
  reflexivity.
Defined.

Lemma fallback_reports_last_error_only_witness :
  exists st',
    Router.executeWithFallback unit nat Samples.rotation Samples.failingRoutes
      "/down" Samples.request Samples.start
    = (Normal (mkProviderResponse false None None
                 (Some "All providers failed. Last error: fetch failed")
                 (Some 500%Z)), st').
Proof.
  apply (fallback_reports_last_error_only unit nat Samples.rotation
           Samples.request Samples.failingRoutes "/down" Samples.start
           [Samples.providerA; Samples.providerB] []
           [Normal (mkProviderResponse false None None (Some "quota exceeded")
                      (Some 429%Z))]
           (Abrupt (Err (mkError "TypeError" "fetch failed" None))));
    reflexivity.
Defined.

Lemma fallback_trace_witness :
  exists r st' k added,
    Router.executeWithFallback unit nat Samples.rotation Samples.chainRoutes
      "/chain" Samples.request Samples.start = (Normal r, st')
    /\ k <= 4
    /\ Router.invoked nat st'
       = firstn k [Samples.providerA; Samples.providerB; Samples.providerC;
                   Samples.providerA]
    /\ Router.world nat st'
       = Observations.worldAfter unit nat Samples.rotation Samples.request
           (firstn k [Samples.providerA; Samples.providerB; Samples.providerC;
                      Samples.providerA]) 0
    /\ Router.console nat st'
       = Log "[Router] Route /chain has 4 provider(s) configured" :: added
    /\ length added = 2 * k.
Proof.
  apply (fallback_trace unit nat Samples.rotation Samples.request
           Samples.chainRoutes "/chain" Samples.start
           [Samples.providerA; Samples.providerB; Samples.providerC;
            Samples.providerA] []).
  reflexivity.
Defined.

(* ------------------------------------------------------------------ *)
(** * Properties of the construction of a router *)

(** [parseRoutesConfig] returns the table that [JSON.parse] yields for a
    present, non-empty [ROUTES_CONFIG], after logging its keys in
    enumeration order; in every other case (variable absent or empty,
    [JSON.parse] throwing, configuration [null]) it logs the cause once and
    throws the same [ProxyError('Invalid ROUTES_CONFIG', 500)], never the
    cause itself. *)
Theorem parseRoutesConfig_outcome
    (JSON_parse : string -> Completion Startup.Parsed) (env : Startup.Env)
    (out : list Startup.StartupEntry) :
  match Startup.parseRoutesConfig JSON_parse env out with
  | (Normal routes, out') =>
      exists configStr,
        Startup.ROUTES_CONFIG env = Some configStr
        /\ configStr <> ""
        /\ JSON_parse configStr = Normal (Startup.ParsedObject routes)
        /\ out' = (out ++ [Startup.LoadedRoutes (map fst (Js.entries routes))])%list
  | (Abrupt thrown, out') =>
      thrown = Router.ProxyError "Invalid ROUTES_CONFIG" 500
      /\ exists cause,
           out' = (out ++ [Startup.ParseFailed cause])%list
           /\ ((cause = Err (mkError "Error"
                               "ROUTES_CONFIG not found in environment" None)
                /\ (Startup.ROUTES_CONFIG env = None
                    \/ Startup.ROUTES_CONFIG env = Some ""))
               \/ (exists configStr,
                     Startup.ROUTES_CONFIG env = Some configStr
                     /\ configStr <> ""
                     /\ (JSON_parse configStr = Abrupt cause
                         \/ JSON_parse configStr = Normal Startup.ParsedNull)))
  end.
Proof.
  unfold Startup.parseRoutesConfig, tryCatch, Js.bind, Js.throw, Js.ret,
    Startup.logLoaded, Startup.logFailed.
  destruct env as [[configStr|]]; simpl.
  - destruct (configStr =? "") eqn:E.
    + apply String.eqb_eq in E. subst configStr.
      split; [reflexivity|]. eexists. split; [reflexivity|].
      left. split; [reflexivity | now right].
    + apply String.eqb_neq in E.
      destruct (JSON_parse configStr) as [[routes|]|cause] eqn:P.
      * exists configStr. now repeat split.
      * split; [reflexivity|]. eexists. split; [reflexivity|].
        right. exists configStr. repeat split; trivial. now right.
      * split; [reflexivity|]. exists cause. split; [reflexivity|].
        right. exists configStr. repeat split; trivial. now left.
  - split; [reflexivity|]. eexists. split; [reflexivity|].
    left. split; [reflexivity | now left].
Qed.

(* ------------------------------------------------------------------ *)
(** * Further properties of the Cloudflare AI adapter *)

(** [convertMessages] keeps the number and the order of the messages; what
    it sends upstream has the role [assistant] for an assistant message and
    [user] for every other one, so never [system] or [tool]; an absent
    content becomes the empty string; and the tool calls of a message make
    no difference to what is sent. *)
Theorem convertMessages_roles (msgs : list OpenAIMessage) :
  length (CloudflareAI.convertMessages msgs) = length msgs
  /\ CloudflareAI.convertMessages (map Observations.withoutToolCalls msgs)
     = CloudflareAI.convertMessages msgs
  /\ forall i msg,
       nth_error msgs i = Some msg ->
       exists sent,
         nth_error (CloudflareAI.convertMessages msgs) i = Some sent
         /\ (CloudflareAI.cf_role sent = assistant <-> role msg = assistant)
         /\ (CloudflareAI.cf_role sent = user <-> role msg <> assistant)
         /\ CloudflareAI.cf_content sent
            = match content msg with Some text => text | None => "" end.
Proof.
  unfold CloudflareAI.convertMessages. split; [apply length_map|]. split.
  - rewrite map_map. apply map_ext. now intros [r c tc].
  - intros i msg Hnth. exists (CloudflareAI.convertMessage msg).
    split; [now apply map_nth_error|].
    destruct msg as [[] c tc]; simpl; repeat split; intros H;
      try reflexivity; try discriminate; try (exfalso; now apply H).
Qed.

Lemma convertMessages_roles_witness :
  exists sent,
    nth_error
      (CloudflareAI.convertMessages
         [mkMessage system (Some "You are a helpful assistant.") None;
          mkMessage tool None None]) 1 = Some sent
    /\ (CloudflareAI.cf_role sent = assistant <-> tool = assistant)
    /\ (CloudflareAI.cf_role sent = user <-> tool <> assistant)
    /\ CloudflareAI.cf_content sent = "".
Proof.
  apply (proj2 (proj2 (convertMessages_roles
                         [mkMessage system (Some "You are a helpful assistant.")
                                    None;
                          mkMessage tool None None])) 1
               (mkMessage tool None None)).
  reflexivity.
Defined.

Section AdapterFacts.

Import CloudflareAI.

Variable Json : Type.
Variable JSON_stringify : Json -> string.
Variable emptySchema : Json.
Variable dateNow : nat -> Z.
Variable decode : list Byte.byte -> string.
Variable handleError : Js.Value -> string -> ProviderResponse.

Let convertFrom := convertToolCallsFrom Json JSON_stringify dateNow.
Let reads := readLoop Json JSON_stringify dateNow decode.
Let forward := forwardChunk Json JSON_stringify dateNow decode.

(** The parameters sent to the binding carry tools exactly when the request
    declares at least one, then as many, under the same names and in the
    same order, with an absent description replaced by the empty string;
    an empty tool list is sent as no tools at all.  The messages keep their
    number, and an absent [stream] is sent as [false]. *)
Theorem buildParams_tools (request : OpenAIChatRequest Json) :
  match p_tools Json (buildParams Json emptySchema request) with
  | Some sent =>
      declaresTools Json request = true
      /\ exists declared,
           tools request = Some declared
           /\ map (cf_tool_name Json) sent = map tool_name declared
           /\ map (cf_tool_description Json) sent
              = map (fun t => match tool_description t with
                              | Some d => d
                              | None => ""
                              end) declared
  | None => declaresTools Json request = false
  end
  /\ length (p_messages Json (buildParams Json emptySchema request))
     = length (messages request)
  /\ (p_stream Json (buildParams Json emptySchema request) = true
      <-> stream request = Some true).
Proof.
  unfold buildParams, declaresTools. cbn [p_tools p_messages p_stream].
  split; [|split].
  - destruct (tools request) as [[|t ts]|]; try reflexivity.
    split; [reflexivity|]. exists (t :: ts). split; [reflexivity|].
    unfold convertTools. rewrite !map_map. split; reflexivity.
  - unfold convertMessages. apply length_map.
  - destruct (stream request) as [[]|]; split; intros H;
      try reflexivity; try discriminate.
Qed.

(** [convertToolCalls] keeps the number and the order of the calls: the
    call at position [i] keeps its name, gets its arguments serialized, and
    gets the id made of the clock reading taken for it and of [i]; the
    clock is read once per call, in order, and the console is left alone. *)
Lemma convertFrom_positions (cfToolCalls : list (CfToolCall Json)) :
  forall (index : nat) (st : State),
  exists converted,
    convertFrom index cfToolCalls st
    = (Normal converted,
       mkState (ticks st + length cfToolCalls) (console st))
    /\ forall i call,
         nth_error cfToolCalls i = Some call ->
         nth_error converted i
         = Some {| tc_id := "call_" ++ showZ (dateNow (ticks st + i)) ++ "_"
                            ++ showNat (index + i);
                   tc_function :=
                     {| fc_name := cf_name Json call;
                        fc_arguments :=
                          JSON_stringify (cf_arguments Json call) |} |}.
Proof.
  induction cfToolCalls as [|call rest IH]; intros index st.
  - exists []. split.
    + simpl. unfold Js.ret. rewrite Nat.add_0_r. now destruct st.
    + intros [|i] c H; discriminate H.
  - destruct (IH (S index) (mkState (S (ticks st)) (console st)))
      as (others & Hrun & Hnth).
    eexists (_ :: others). split.
    + unfold convertFrom. simpl. unfold Js.bind, convertToolCall, now, Js.ret.
      simpl. fold convertFrom. rewrite Hrun. simpl.
      now rewrite Nat.add_succ_r.
    + intros [|i] c H; simpl in H.
      * injection H as <-. simpl. now rewrite !Nat.add_0_r.
      * simpl. rewrite (Hnth i c H). simpl.
        now rewrite !Nat.add_succ_r.
Qed.

Theorem convertToolCalls_positions (cfToolCalls : list (CfToolCall Json))
    (st : State) :
  exists converted,
    convertToolCalls Json JSON_stringify dateNow cfToolCalls st
    = (Normal converted,
       mkState (ticks st + length cfToolCalls) (console st))
    /\ length converted = length cfToolCalls
    /\ forall i call,
         nth_error cfToolCalls i = Some call ->
         nth_error converted i
         = Some {| tc_id := "call_" ++ showZ (dateNow (ticks st + i)) ++ "_"
                            ++ showNat i;
                   tc_function :=
                     {| fc_name := cf_name Json call;
                        fc_arguments :=
                          JSON_stringify (cf_arguments Json call) |} |}.
Proof.
  destruct (convertFrom_positions cfToolCalls 0 st) as (converted & Hrun & Hnth).
  exists converted. split; [exact Hrun|]. split; [|exact Hnth].
  destruct (convertFrom_run Json JSON_stringify dateNow cfToolCalls 0 st)
    as (converted' & st' & Hrun' & _ & Hlen & _).
  unfold convertFrom in Hrun. rewrite Hrun in Hrun'.
  now injection Hrun' as <- _.
Qed.

(** The two error paths of [chat].  Without a binding it returns what
    [handleError] makes of the error [Cloudflare AI binding not available],
    and touches nothing.  With a binding whose call throws or rejects, the
    fault is not given to [handleError]: it leaves [chat] as it is, for
    streaming and non-streaming requests alike. *)
Theorem chat_error_paths (model : string) (request : OpenAIChatRequest Json)
    (apiKey : string) (st : State) :
  chat Json JSON_stringify emptySchema dateNow decode None handleError
       model request apiKey st
  = (Normal (handleError
               (Err (mkError "Error" "Cloudflare AI binding not available" None))
               "CloudflareAIProvider"), st)
  /\ forall binding fault,
       binding model (buildParams Json emptySchema request) = Abrupt fault ->
       chat Json JSON_stringify emptySchema dateNow decode (Some binding)
            handleError model request apiKey st
       = (Abrupt fault, st).
Proof.
  split; [reflexivity|].
  intros binding fault Hrun.
  unfold chat, Js.bind, tryCatch, Js.ret.
  destruct (p_stream Json (buildParams Json emptySchema request)).
  - unfold handleStream, run, Js.bind. now rewrite Hrun.
  - unfold handleNonStream, run, Js.bind. now rewrite Hrun.
Qed.

(** Whatever the binding resolves to, [handleStream] returns a success
    whose stream is closed: the writer is closed on every path of the
    background task, also when the value resolved to is not a stream, in
    which case nothing is written and one fault is logged. *)
Theorem handleStream_always_closes (model : string) (params : Params Json)
    (binding : string -> Params Json -> Completion (CfResult Json))
    (result : CfResult Json) (st : State) :
  binding model params = Normal result ->
  exists written st',
    handleStream Json JSON_stringify dateNow decode (Some binding)
      model params st
    = (Normal {| success := true;
                 response := None;
                 stream_handle := Some (mkReadable written true);
                 error := None;
                 statusCode := None |}, st')
    /\ (forall value,
          result = Result Json value ->
          written = []
          /\ ticks st' = ticks st
          /\ exists fault,
               console st'
               = (console st ++ [ErrorLog "Stream error:" fault])%list).
Proof.
  intros Hrun. destruct result as [value|upstream].
  - unfold handleStream, run, Js.bind. rewrite Hrun.
    eexists [], _. split; [reflexivity|].
    intros value' _. split; [reflexivity|]. split; [reflexivity|].
    eexists. reflexivity.
  - destruct (streamed_resolved Json JSON_stringify dateNow decode
                (Some binding) model params binding upstream st eq_refl Hrun)
      as (body & st' & Hret & _).
    rewrite Hret. eexists _, st'. split; [reflexivity|].
    intros value H. discriminate H.
Qed.

End AdapterFacts.

Section AdapterStreams.

Import CloudflareAI.

Variable Json : Type.
Variable JSON_stringify : Json -> string.
Variable emptySchema : Json.
Variable dateNow : nat -> Z.
Variable decode : list Byte.byte -> string.
Variable handleError : Js.Value -> string -> ProviderResponse.

Let reads := readLoop Json JSON_stringify dateNow decode.
Let forward := forwardChunk Json JSON_stringify dateNow decode.
Let streamed := handleStream Json JSON_stringify dateNow decode.

(** The loop reads nothing past a chunk that cannot be parsed. *)
Lemma reads_stop_at_fault (model : string) (bad : CfValue Json)
    (post : list (CfValue Json)) (ending : ReadEnd) (fault : Js.Value)
    (pre : list (CfValue Json)) :
  parseChunk Json decode bad = Abrupt fault ->
  forall (isFirst : bool) (t : Task),
    reads model isFirst (pre ++ bad :: post)%list ending t
    = reads model isFirst pre (ReadFault fault) t.
Proof.
  intros Hbad. induction pre as [|value pre IH]; intros isFirst t.
  - pose proof (forward_run Json JSON_stringify dateNow decode model isFirst
                  bad t) as Hrun.
    rewrite Hbad in Hrun. unfold reads. simpl. unfold Js.bind.
    now rewrite Hrun.
  - unfold reads. simpl. unfold Js.bind.
    destruct (forwardChunk Json JSON_stringify dateNow decode model isFirst
                value t) as [[isFirst'|thrown] t']; [|reflexivity].
    apply IH.
Qed.

(** A chunk object whose [response] is absent or empty ends the stream
    where it stands, whatever tool calls it carries: the stream handed back,
    the console and the clock are those of an upstream whose read is
    rejected at that position, and the chunks that follow are neither read
    nor forwarded. *)
Theorem stream_stops_at_unreadable_chunk (model : string)
    (params : Params Json) (pre post : list (CfValue Json))
    (ending : ReadEnd) (resp : option string)
    (calls : option (list (CfToolCall Json))) (st : State) :
  resp = None \/ resp = Some "" ->
  exists fault,
    forall binding binding',
      binding model params
      = Normal (Stream Json
                  (mkUpstream Json (pre ++ CfObject Json resp calls :: post)%list
                              ending)) ->
      binding' model params
      = Normal (Stream Json (mkUpstream Json pre (ReadFault fault))) ->
      streamed (Some binding) model params st
      = streamed (Some binding') model params st.
Proof.
  intros Hresp.
  assert (Hbad : exists fault,
             parseChunk Json decode (CfObject Json resp calls) = Abrupt fault).
  { destruct Hresp as [->| ->]; eexists; reflexivity. }
  destruct Hbad as [fault Hbad]. exists fault.
  intros binding binding' Hrun Hrun'.
  unfold streamed, handleStream, run, Js.bind. rewrite Hrun, Hrun'.
  unfold forwardStream, tryFinally, tryCatch, Js.bind. simpl up_chunks.
  simpl up_end.
  pose proof (reads_stop_at_fault model (CfObject Json resp calls) post ending
                fault pre Hbad true (mkTask st [] false)) as Hstop.
  unfold reads in Hstop. now rewrite Hstop.
Qed.

Lemma parse_text_only (value : CfValue Json) (text : string)
    (calls : option (list (CfToolCall Json))) :
  Observations.textOnly Json value = true ->
  parseChunk Json decode value = Normal (text, calls) ->
  chunkText Json decode value = text
  /\ (calls = None \/ calls = Some []).
Proof.
  destruct value as [s|[resp|] [[|call rest]|]|bytes]; simpl;
    try discriminate; intros _;
    try (destruct (resp =? ""); [discriminate|]);
    intros [= <- <-]; split; auto.
Qed.

(** On an upstream without tool calls that is consumed to its end, the loop
    writes the texts that are not empty, in order, and leaves the clock and
    the console alone. *)
Lemma reads_text_only (model : string) (ending : ReadEnd)
    (chunks : list (CfValue Json)) :
  forallb (Observations.textOnly Json) chunks = true ->
  firstFault Json decode chunks ending = None ->
  forall (isFirst : bool) (t : Task),
  exists body,
    reads model isFirst chunks ending t
    = (Normal tt, mkTask (task_state t) (written t ++ body)%list
                         (writer_closed t))
    /\ map Observations.frameContent body
       = map Some (filter (fun text => negb (text =? ""))
                          (map (chunkText Json decode) chunks)).
Proof.
  induction chunks as [|value rest IH]; intros Htext Hfault isFirst t.
  - exists []. rewrite app_nil_r. simpl in Hfault.
    destruct ending; [|discriminate]. destruct t. now split.
  - simpl in Htext. apply andb_true_iff in Htext. destruct Htext as [Hv Htext].
    simpl in Hfault.
    destruct (parseChunk Json decode value) as [[text calls]|fault] eqn:Hparse;
      [|discriminate].
    destruct (parse_text_only value text calls Hv Hparse) as [Hchunk Hcalls].
    pose proof (forward_run Json JSON_stringify dateNow decode model isFirst
                  value t) as Hrun.
    rewrite Hparse in Hrun.
    assert (Hfwd :
      forwardChunk Json JSON_stringify dateNow decode model isFirst value t
      = (if text =? "" then (Normal isFirst, t)
         else (Normal false,
               mkTask (task_state t)
                 (written t
                  ++ [createStreamChunk
                        (mkDelta (roleIfFirst isFirst) (Some text) None)
                        model None])%list
                 (writer_closed t)))).
    { destruct Hcalls as [-> | ->]; exact Hrun. }
    unfold reads. simpl readLoop. unfold Js.bind. rewrite Hfwd.
    simpl map. rewrite Hchunk. simpl filter.
    destruct (text =? "") eqn:E; simpl negb; cbv iota.
    + apply (IH Htext Hfault isFirst t).
    + destruct (IH Htext Hfault false
                  (mkTask (task_state t)
                     (written t
                      ++ [createStreamChunk
                            (mkDelta (roleIfFirst isFirst) (Some text) None)
                            model None])%list
                     (writer_closed t))) as (body & Hrest & Hcontents).
      unfold reads in Hrest. rewrite Hrest. eexists (_ :: body).
      simpl. rewrite <- app_assoc. split; [reflexivity|].
      now rewrite Hcontents.
Qed.

(** For a streaming request whose upstream carries no tool calls and is
    consumed to its end, the contents of the chunks emitted before the
    terminal chunk are exactly the texts of the upstream chunks that are not
    empty, in upstream order: no text is lost, repeated or reordered; and
    the call leaves the clock and the console as they were. *)
Theorem stream_text_fidelity (model : string)
    (request : OpenAIChatRequest Json) (apiKey : string)
    (binding : string -> Params Json -> Completion (CfResult Json))
    (upstream : Upstream Json) (st : State) :
  stream request = Some true ->
  binding model (buildParams Json emptySchema request)
  = Normal (Stream Json upstream) ->
  forallb (Observations.textOnly Json) (up_chunks Json upstream) = true ->
  firstFault Json decode (up_chunks Json upstream) (up_end Json upstream)
  = None ->
  exists body terminal,
    chat Json JSON_stringify emptySchema dateNow decode (Some binding)
         handleError model request apiKey st
    = (Normal
         {| success := true;
            response := None;
            stream_handle :=
              Some (mkReadable
                      (body ++ [ChunkFrame terminal;
                                LiteralFrame doneSentinel])%list true);
            error := None;
            statusCode := None |}, st)
    /\ map Observations.frameContent body
       = map Some (filter (fun text => negb (text =? ""))
                          (map (chunkText Json decode)
                               (up_chunks Json upstream))).
Proof.
  intros Hs Hrun Htext Hfault.
  rewrite (chat_streams Json JSON_stringify emptySchema dateNow decode
             (Some binding) handleError model request apiKey binding st
             eq_refl Hs).
  unfold handleStream, run, Js.bind. rewrite Hrun.
  unfold forwardStream, tryFinally, tryCatch, Js.bind.
  destruct (reads_text_only model (up_end Json upstream)
              (up_chunks Json upstream) Htext Hfault true (mkTask st [] false))
    as (body & Hreads & Hcontents).
  unfold reads in Hreads. rewrite Hreads.
  exists body. eexists. simpl. rewrite <- app_assoc. simpl.
  split; [reflexivity | exact Hcontents].
Qed.

(** With the binding present, a response that [chat] returns is a success
    without error or status that carries exactly one of the two payloads:
    a closed stream and no response envelope for a streaming request, a
    response envelope of one choice and no stream for any other request. *)
Theorem chat_response_or_stream (model : string)
    (request : OpenAIChatRequest Json) (apiKey : string)
    (binding : string -> Params Json -> Completion (CfResult Json))
    (st st' : State) (r : ProviderResponse) :
  chat Json JSON_stringify emptySchema dateNow decode (Some binding)
       handleError model request apiKey st = (Normal r, st') ->
  success r = true
  /\ error r = None
  /\ statusCode r = None
  /\ ((stream request = Some true
       /\ response r = None
       /\ exists readable, stream_handle r = Some readable
                           /\ closed readable = true)
      \/ (stream request <> Some true
          /\ stream_handle r = None
          /\ exists envelope choice,
               response r = Some envelope /\ choices envelope = [choice])).
Proof.
  unfold chat, Js.bind, tryCatch, Js.ret.
  assert (Hflag : p_stream Json (buildParams Json emptySchema request) = true
                  <-> stream request = Some true).
  { unfold buildParams. simpl.
    destruct (stream request) as [[]|]; split; intros H;
      try reflexivity; try discriminate. }
  destruct (p_stream Json (buildParams Json emptySchema request)) eqn:F;
    intros Hret.
  - destruct (streamed_normal Json JSON_stringify dateNow decode (Some binding)
                model _ st st' r Hret) as (b & result & [= <-] & Hrun).
    destruct result as [value|upstream].
    + unfold handleStream, run, Js.bind in Hret. rewrite Hrun in Hret.
      injection Hret as <- _. repeat split. left.
      split; [now apply Hflag|]. split; [reflexivity|].
      eexists. split; reflexivity.
    + destruct (streamed_resolved Json JSON_stringify dateNow decode
                  (Some binding) model _ binding upstream st eq_refl Hrun)
        as (body & st1 & Hret' & _).
      rewrite Hret' in Hret. injection Hret as <- _. repeat split. left.
      split; [now apply Hflag|]. split; [reflexivity|].
      eexists. split; reflexivity.
  - destruct (nonStream_normal Json JSON_stringify dateNow (Some binding)
                model _ st st' r Hret) as (b & result & [= <-] & Hrun).
    destruct (nonStream_resolved Json JSON_stringify dateNow (Some binding)
                model _ binding result st eq_refl Hrun)
      as (finalMessage & reason & st1 & Hret' & _).
    rewrite Hret' in Hret. injection Hret as <- _. repeat split. right.
    split.
    + intros H. apply Hflag in H. discriminate H.
    + split; [reflexivity|]. eexists _, _. split; reflexivity.
Qed.

End AdapterStreams.

Lemma convertToolCalls_positions_witness :
  exists converted,
    CloudflareAI.convertToolCalls unit Samples.stringify Samples.clock
      [Samples.weatherCall; Samples.weatherCall] Samples.adapterStart
    = (Normal converted, CloudflareAI.mkState (0 + 2) [])
    /\ length converted = 2
    /\ forall i call,
         nth_error [Samples.weatherCall; Samples.weatherCall] i = Some call ->
         nth_error converted i
         = Some {| tc_id := "call_" ++ showZ (Samples.clock (0 + i)) ++ "_"
                            ++ showNat i;
                   tc_function :=
                     {| fc_name := CloudflareAI.cf_name unit call;
                        fc_arguments :=
                          Samples.stringify
                            (CloudflareAI.cf_arguments unit call) |} |}.
Proof.
  apply (convertToolCalls_positions unit Samples.stringify Samples.clock
           [Samples.weatherCall; Samples.weatherCall] Samples.adapterStart).
Defined.

Lemma chat_error_paths_witness :
  CloudflareAI.chat unit Samples.stringify tt Samples.clock Samples.decodeBytes
    (Some (fun _ _ => Abrupt (Str "upstream unavailable")))
    Samples.failWith "@cf/meta/llama" Samples.request "unused-key"
    Samples.adapterStart
  = (Abrupt (Str "upstream unavailable"), Samples.adapterStart).
Proof.
  apply (proj2 (chat_error_paths unit Samples.stringify tt Samples.clock
                  Samples.decodeBytes Samples.failWith "@cf/meta/llama"
                  Samples.request "unused-key" Samples.adapterStart)).
  reflexivity.
Defined.

Lemma handleStream_always_closes_witness :
  exists written st',
    CloudflareAI.handleStream unit Samples.stringify Samples.clock
      Samples.decodeBytes
      (Some (fun _ _ => Normal (CloudflareAI.Result unit
                                  (CloudflareAI.CfString unit "not a stream"))))
      "@cf/meta/llama"
      (CloudflareAI.buildParams unit tt Samples.streamRequest)
      Samples.adapterStart
    = (Normal {| success := true;
                 response := None;
                 stream_handle := Some (mkReadable written true);
                 error := None;
                 statusCode := None |}, st')
    /\ (forall value,
          CloudflareAI.Result unit (CloudflareAI.CfString unit "not a stream")
          = CloudflareAI.Result unit value ->
          written = []
          /\ CloudflareAI.ticks st' = CloudflareAI.ticks Samples.adapterStart
          /\ exists fault,
               CloudflareAI.console st'
               = (CloudflareAI.console Samples.adapterStart
                  ++ [ErrorLog "Stream error:" fault])%list).
Proof.
  apply (handleStream_always_closes unit Samples.stringify Samples.clock
           Samples.decodeBytes "@cf/meta/llama"
           (CloudflareAI.buildParams unit tt Samples.streamRequest)
           (fun _ _ => Normal (CloudflareAI.Result unit
                                 (CloudflareAI.CfString unit "not a stream")))
           (CloudflareAI.Result unit (CloudflareAI.CfString unit "not a stream"))
           Samples.adapterStart).
  reflexivity.
Defined.

Lemma stream_stops_at_unreadable_chunk_witness :
  exists fault,
    forall binding binding',
      binding "@cf/meta/llama"
              (CloudflareAI.buildParams unit tt Samples.toolStreamRequest)
      = Normal (CloudflareAI.Stream unit
                  (CloudflareAI.mkUpstream unit
                     ([CloudflareAI.CfString unit "Hi"]
                      ++ CloudflareAI.CfObject unit None
                           (Some [Samples.weatherCall])
                      :: [CloudflareAI.CfString unit "never forwarded"])%list
                     CloudflareAI.Exhausted)) ->
      binding' "@cf/meta/llama"
               (CloudflareAI.buildParams unit tt Samples.toolStreamRequest)
      = Normal (CloudflareAI.Stream unit
                  (CloudflareAI.mkUpstream unit
                     [CloudflareAI.CfString unit "Hi"]
                     (CloudflareAI.ReadFault fault))) ->
      CloudflareAI.handleStream unit Samples.stringify Samples.clock
        Samples.decodeBytes (Some binding) "@cf/meta/llama"
        (CloudflareAI.buildParams unit tt Samples.toolStreamRequest)
        Samples.adapterStart
      = CloudflareAI.handleStream unit Samples.stringify Samples.clock
          Samples.decodeBytes (Some binding') "@cf/meta/llama"
          (CloudflareAI.buildParams unit tt Samples.toolStreamRequest)
          Samples.adapterStart.
Proof.
  apply (stream_stops_at_unreadable_chunk unit Samples.stringify Samples.clock
           Samples.decodeBytes "@cf/meta/llama"
           (CloudflareAI.buildParams unit tt Samples.toolStreamRequest)
           [CloudflareAI.CfString unit "Hi"]
           [CloudflareAI.CfString unit "never forwarded"]
           CloudflareAI.Exhausted None (Some [Samples.weatherCall])
           Samples.adapterStart).
  left. reflexivity.
Defined.

Lemma stream_text_fidelity_witness :
  exists body terminal,
    Samples.adapterChat (CloudflareAI.Stream unit Samples.textUpstream)
      Samples.streamRequest
    = (Normal
         {| success := true;
            response := None;
            stream_handle :=
              Some (mkReadable
                      (body ++ [ChunkFrame terminal;
                                LiteralFrame CloudflareAI.doneSentinel])%list
                      true);
            error := None;
            statusCode := None |}, Samples.adapterStart)
    /\ map Observations.frameContent body = [Some "Hel"; Some "lo"].
Proof.
  apply (stream_text_fidelity unit Samples.stringify tt Samples.clock
           Samples.decodeBytes Samples.failWith "@cf/meta/llama"
           Samples.streamRequest "unused-key"
           (fun _ _ => Normal (CloudflareAI.Stream unit Samples.textUpstream))
           Samples.textUpstream Samples.adapterStart);
    reflexivity.
Defined.

Lemma chat_response_or_stream_witness :
  exists r st',
    Samples.adapterChat (CloudflareAI.Stream unit Samples.textUpstream)
      Samples.streamRequest = (Normal r, st')
    /\ success r = true
    /\ error r = None
    /\ statusCode r = None
    /\ ((stream Samples.streamRequest = Some true
         /\ response r = None
         /\ exists readable, stream_handle r = Some readable
                             /\ closed readable = true)
        \/ (stream Samples.streamRequest <> Some true
            /\ stream_handle r = None
            /\ exists envelope choice,
                 response r = Some envelope /\ choices envelope = [choice])).
Proof.
  eexists _, _. split; [reflexivity|].
  eapply (chat_response_or_stream unit Samples.stringify tt Samples.clock
            Samples.decodeBytes Samples.failWith "@cf/meta/llama"
            Samples.streamRequest "unused-key"
            (fun _ _ => Normal (CloudflareAI.Stream unit Samples.textUpstream))
            Samples.adapterStart).
  reflexivity.
Defined.

(* ------------------------------------------------------------------ *)
(** * What the stream loop forwards *)

Section ForwardingProperties.

Import CloudflareAI.

Variable Json : Type.
Variable JSON_stringify : Json -> string.
Variable emptySchema : Json.
Variable dateNow : nat -> Z.
Variable decode : list Byte.byte -> string.
Variable aiBinding : option (string -> Params Json -> Completion (CfResult Json)).
Variable handleError : Js.Value -> string -> ProviderResponse.

Let convertFrom := convertToolCallsFrom Json JSON_stringify dateNow.
Let forward := forwardChunk Json JSON_stringify dateNow decode.
Let reads := readLoop Json JSON_stringify dateNow decode.
Let streamed := handleStream Json JSON_stringify dateNow decode aiBinding.
Let chatWith :=
  chat Json JSON_stringify emptySchema dateNow decode aiBinding handleError.
Let forwardsTo := Observations.forwards Json JSON_stringify decode.
Let withText := Observations.withText Json decode.
Let readBefore := Observations.readBefore Json decode.

(** A converted batch carries, position by position, the names and the
    serialized arguments of the upstream calls. *)
Lemma convertFrom_payload (cfToolCalls : list (CfToolCall Json)) :
  forall (index : nat) (st st' : State) (converted : list ToolCall),
    convertFrom index cfToolCalls st = (Normal converted, st') ->
    map Observations.toolCallPayload converted
    = map (Observations.upstreamPayload Json JSON_stringify) cfToolCalls.
Proof.
  induction cfToolCalls as [|call rest IH]; intros index st st' converted H.
  - injection H as <- _. reflexivity.
  - unfold convertFrom in H. simpl in H.
    unfold Js.bind, convertToolCall, now, Js.ret in H. simpl in H.
    destruct (convertToolCallsFrom Json JSON_stringify dateNow (S index) rest
                (mkState (S (ticks st)) (console st)))
      as [[others|thrown] st2] eqn:E; [|discriminate H].
    injection H as <- _. simpl. f_equal. exact (IH _ _ _ _ E).
Qed.

(** What the parse of a chunk says of its text and of its tool calls. *)
Lemma parse_shape (value : CfValue Json) (text : string)
    (calls : option (list (CfToolCall Json))) :
  parseChunk Json decode value = Normal (text, calls) ->
  chunkText Json decode value = text
  /\ Observations.chunkToolCalls Json value
     = match calls with Some l => l | None => [] end
  /\ (Observations.chunkToolCalls Json value <> [] -> (text =? "") = false).
Proof.
  destruct value as [s|[resp|] cs|bytes]; simpl.
  - intros [= <- <-]. repeat split. intros H. now contradiction H.
  - destruct (resp =? "") eqn:E; [discriminate|].
    intros [= <- <-]. repeat split. intros _. exact E.
  - discriminate.
  - intros [= <- <-]. repeat split. intros H. now contradiction H.
Qed.

(** One iteration writes, for a chunk that parses, the canonical chunk for
    it if its text is not empty, and nothing if it is. *)
Lemma forward_forwards (model : string) (isFirst : bool) (value : CfValue Json)
    (t : Task) (parsed : string * option (list (CfToolCall Json))) :
  parseChunk Json decode value = Normal parsed ->
  exists body st',
    forward model isFirst value t
    = (Normal (match body with [] => isFirst | _ => false end),
       mkTask st' (written t ++ body)%list (writer_closed t))
    /\ Forall2 (forwardsTo model) (withText [value]) body
    /\ Forall (fun f => match f with
                        | ChunkFrame c =>
                            delta_role (chunk_delta c) = roleIfFirst isFirst
                        | LiteralFrame _ => False
                        end) body.
Proof.
  intros Hparse. destruct parsed as [text calls].
  destruct (parse_shape value text calls Hparse) as (Htext & Hcalls & Hne).
  pose proof (forward_run Json JSON_stringify dateNow decode model isFirst
                value t) as Hrun.
  rewrite Hparse in Hrun.
  unfold withText, Observations.withText. simpl filter. rewrite Htext.
  assert (Hplain :
    Observations.chunkToolCalls Json value = [] ->
    forward model isFirst value t
    = (if text =? "" then (Normal isFirst, t)
       else (Normal false,
             mkTask (task_state t)
               (written t
                ++ [createStreamChunk
                      (mkDelta (roleIfFirst isFirst) (Some text) None)
                      model None])%list
               (writer_closed t))) ->
    exists body st',
      forward model isFirst value t
      = (Normal (match body with [] => isFirst | _ => false end),
         mkTask st' (written t ++ body)%list (writer_closed t))
      /\ Forall2 (forwardsTo model)
           (if negb (text =? "") then [value] else []) body
      /\ Forall (fun f => match f with
                          | ChunkFrame c =>
                              delta_role (chunk_delta c) = roleIfFirst isFirst
                          | LiteralFrame _ => False
                          end) body).
  { intros Hnone ->. destruct (text =? ""); simpl.
    - exists [], (task_state t). rewrite app_nil_r. destruct t.
      repeat split; constructor.
    - eexists [_], (task_state t). split; [reflexivity|]. split.
      + constructor; [|constructor].
        unfold forwardsTo, Observations.forwards. simpl.
        rewrite Hnone, Htext. now repeat split.
      + repeat constructor. }
  destruct calls as [[|call rest]|]; try (apply Hplain; assumption).
  destruct Hrun as (converted & st' & Hconv & Hrun).
  rewrite (Hne ltac:(rewrite Hcalls; discriminate)). simpl.
  eexists [_], st'. split; [exact Hrun|]. split.
  - constructor; [|constructor].
    unfold forwardsTo, Observations.forwards. simpl. rewrite Hcalls.
    repeat split. exists converted. split; [reflexivity|].
    unfold convertToolCalls in Hconv.
    exact (convertFrom_payload _ _ _ _ _ Hconv).
  - repeat constructor.
Qed.

Lemma withText_cons (value : CfValue Json) (rest : list (CfValue Json)) :
  withText (value :: rest) = (withText [value] ++ withText rest)%list.
Proof.
  unfold withText, Observations.withText. simpl.
  now destruct (negb (chunkText Json decode value =? "")).
Qed.

(** On chunks that all parse, the loop writes the canonical chunks for
    those whose text is not empty, in order, and nothing else. *)
Lemma reads_forwards (model : string) (chunks : list (CfValue Json)) :
  firstFault Json decode chunks Exhausted = None ->
  forall (isFirst : bool) (t : Task),
  exists body st',
    reads model isFirst chunks Exhausted t
    = (Normal tt, mkTask st' (written t ++ body)%list (writer_closed t))
    /\ Forall2 (forwardsTo model) (withText chunks) body.
Proof.
  induction chunks as [|value rest IH]; intros Hfault isFirst t.
  - exists [], (task_state t). rewrite app_nil_r. destruct t.
    split; [reflexivity | constructor].
  - simpl in Hfault.
    destruct (parseChunk Json decode value) as [parsed|fault] eqn:Hparse;
      [|discriminate].
    destruct (forward_forwards model isFirst value t parsed Hparse)
      as (body & st1 & Hfwd & Hbody & _).
    unfold reads. simpl readLoop. unfold Js.bind.
    unfold forward in Hfwd. rewrite Hfwd.
    destruct (IH Hfault (match body with [] => isFirst | _ => false end)
                (mkTask st1 (written t ++ body)%list (writer_closed t)))
      as (body' & st' & Hrest & Hbody').
    unfold reads in Hrest. rewrite Hrest.
    exists (body ++ body')%list, st'. simpl written. simpl writer_closed.
    rewrite app_assoc. split; [reflexivity|].
    rewrite withText_cons. now apply Forall2_app.
Qed.

Lemma readBefore_parses (chunks : list (CfValue Json)) :
  firstFault Json decode (readBefore chunks) Exhausted = None.
Proof.
  induction chunks as [|value rest IH]; [reflexivity|].
  unfold readBefore. simpl.
  destruct (parseChunk Json decode value) as [parsed|fault] eqn:Hparse;
    [|reflexivity].
  simpl. now rewrite Hparse.
Qed.

(** A faulting loop has written what the loop writes for the chunks read
    before the fault. *)
Lemma reads_faulting (model : string) (ending : ReadEnd) (fault : Js.Value)
    (chunks : list (CfValue Json)) :
  firstFault Json decode chunks ending = Some fault ->
  forall (isFirst : bool) (t : Task),
    reads model isFirst chunks ending t
    = (Abrupt fault,
       snd (reads model isFirst (readBefore chunks) Exhausted t)).
Proof.
  induction chunks as [|value rest IH]; intros Hfault isFirst t.
  - simpl in Hfault. destruct ending; [discriminate|].
    injection Hfault as ->. reflexivity.
  - simpl in Hfault. unfold readBefore. simpl Observations.readBefore.
    destruct (parseChunk Json decode value) as [parsed|fault'] eqn:Hparse.
    + destruct (forward_forwards model isFirst value t parsed Hparse)
        as (body & st1 & Hfwd & _).
      unfold reads. simpl readLoop. unfold Js.bind.
      unfold forward in Hfwd. rewrite Hfwd.
      apply (IH Hfault).
    + injection Hfault as ->.
      pose proof (forward_run Json JSON_stringify dateNow decode model isFirst
                    value t) as Hrun.
      rewrite Hparse in Hrun. unfold reads. simpl readLoop. unfold Js.bind.
      now rewrite Hrun.
Qed.

(** C5 (amended). For an upstream chunk that is a string, bytes, or an
    object with a non-empty response, the adapter writes exactly one
    canonical chunk when the text of the upstream chunk is not empty and
    none when it is; the chunk written is the canonical chunk for the
    upstream chunk: it carries the text, or, when the upstream chunk has
    tool calls, the tool calls converted in order with their names and
    serialized arguments, and then no content. *)
Theorem chunk_forwarding (model : string) (isFirst : bool)
    (value : CfValue Json) (st : State) :
  Observations.readableChunk Json value = true ->
  length (chunkFrames Json JSON_stringify dateNow decode model isFirst value st)
  = (if chunkText Json decode value =? "" then 0 else 1)
  /\ Forall2 (forwardsTo model) (withText [value])
       (chunkFrames Json JSON_stringify dateNow decode model isFirst value st)
  /\ (carriesBoth Json value = true ->
      exists chunk converted,
        chunkFrames Json JSON_stringify dateNow decode model isFirst value st
        = [ChunkFrame chunk]
        /\ delta_tool_calls (chunk_delta chunk) = Some converted
        /\ map Observations.toolCallPayload converted
           = map (Observations.upstreamPayload Json JSON_stringify)
                 (Observations.chunkToolCalls Json value)
        /\ delta_content (chunk_delta chunk) = None
        /\ delta_role (chunk_delta chunk) = roleIfFirst isFirst
        /\ chunk_model chunk = model
        /\ chunk_finish_reason chunk = None).
Proof.
  intros Hreadable.
  assert (Hparse : exists parsed, parseChunk Json decode value = Normal parsed).
  { destruct value as [s|[resp|] cs|bytes]; simpl in *;
      try discriminate; try (eexists; reflexivity).
    apply negb_true_iff in Hreadable. rewrite Hreadable.
    eexists; reflexivity. }
  destruct Hparse as [parsed Hparse].
  destruct (forward_forwards model isFirst value (mkTask st [] false) parsed
              Hparse) as (body & st' & Hfwd & Hbody & Hrole).
  unfold chunkFrames. fold forward. rewrite Hfwd. simpl written.
  split; [|split; [exact Hbody|]].
  - apply Forall2_length in Hbody. rewrite <- Hbody.
    unfold withText, Observations.withText. simpl.
    now destruct (chunkText Json decode value =? "").
  - intros Hboth.
    destruct value as [s|[text|] [[|call rest]|]|bytes]; try discriminate.
    simpl in Hboth. unfold withText, Observations.withText in Hbody.
    simpl in Hbody. rewrite Hboth in Hbody.
    inversion Hbody as [|v f vs fs Hf Hnil]; subst.
    inversion Hnil; subst.
    inversion Hrole as [|f' fs' Hr _]; subst.
    destruct f as [chunk|lit]; [|contradiction].
    unfold forwardsTo, Observations.forwards in Hf. simpl in Hf.
    destruct Hf as (Hmodel & Hfinish & Hcontent & converted & Hcalls & Hpay).
    exists chunk, converted. now repeat split.
Qed.

(** C6 (amended). For a streaming request whose upstream faults while it is
    consumed, the fault is logged with [console.error], the stream handed
    back is closed, and it holds exactly the canonical chunks for the
    upstream chunks read before the fault whose text is not empty, in
    upstream order, and nothing else: no terminal chunk and no sentinel;
    the response is a success all the same. *)
Theorem stream_closed_after_fault (model : string)
    (request : OpenAIChatRequest Json) (apiKey : string)
    (binding : string -> Params Json -> Completion (CfResult Json))
    (upstream : Upstream Json) (st : State) (fault : Js.Value) :
  aiBinding = Some binding ->
  stream request = Some true ->
  binding model (buildParams Json emptySchema request)
  = Normal (Stream Json upstream) ->
  firstFault Json decode (up_chunks Json upstream) (up_end Json upstream)
  = Some fault ->
  exists body st',
    chatWith model request apiKey st
    = (Normal
         {| success := true;
            response := None;
            stream_handle := Some (mkReadable body true);
            error := None;
            statusCode := None |}, st')
    /\ console st' = (console st ++ [ErrorLog "Stream error:" fault])%list
    /\ contentChunks true body = true
    /\ forallb (fun f => negb (isTerminal f) && negb (isDone f)) body = true
    /\ Forall2 (forwardsTo model)
         (withText (readBefore (up_chunks Json upstream))) body.
Proof.
  intros Hb Hs Hrun Hfault.
  unfold chatWith.
  rewrite (chat_streams Json JSON_stringify emptySchema dateNow decode
             aiBinding handleError model request apiKey binding st Hb Hs).
  destruct (streamed_resolved Json JSON_stringify dateNow decode aiBinding
              model _ binding upstream st Hb Hrun)
    as (body & st' & Hret & Hbody & Hcons & _).
  rewrite Hfault in Hret, Hcons.
  exists body, st'. split; [exact Hret|]. split; [exact Hcons|].
  split; [exact Hbody|].
  split; [exact (contentChunks_plain body true Hbody)|].
  destruct (reads_forwards model (readBefore (up_chunks Json upstream))
              (readBefore_parses _) true (mkTask st [] false))
    as (body1 & st1 & Hprefix & Hforwards).
  pose proof (reads_faulting model (up_end Json upstream) fault
                (up_chunks Json upstream) Hfault true (mkTask st [] false))
    as Hloop.
  rewrite Hprefix in Hloop. simpl in Hloop.
  unfold handleStream, run, Js.bind in Hret. rewrite Hb, Hrun in Hret.
  unfold forwardStream, tryFinally, tryCatch, Js.bind in Hret.
  unfold reads in Hloop. rewrite Hloop in Hret. simpl in Hret.
  injection Hret as Hframes _. rewrite <- Hframes. exact Hforwards.
Qed.

End ForwardingProperties.

(** C5, on an upstream chunk with text and two tool calls. *)
Lemma chunk_forwarding_witness :
  Observations.readableChunk unit
    (CloudflareAI.CfObject unit (Some "calling")
       (Some [Samples.weatherCall; Samples.weatherCall])) = true
  /\ length
       (CloudflareAI.chunkFrames unit Samples.stringify Samples.clock
          Samples.decodeBytes "@cf/meta/llama" true
          (CloudflareAI.CfObject unit (Some "calling")
             (Some [Samples.weatherCall; Samples.weatherCall]))
          Samples.adapterStart)
     = (if CloudflareAI.chunkText unit Samples.decodeBytes
             (CloudflareAI.CfObject unit (Some "calling")
                (Some [Samples.weatherCall; Samples.weatherCall])) =? ""
        then 0 else 1)
  /\ Forall2
       (Observations.forwards unit Samples.stringify Samples.decodeBytes
          "@cf/meta/llama")
       (Observations.withText unit Samples.decodeBytes
          [CloudflareAI.CfObject unit (Some "calling")
             (Some [Samples.weatherCall; Samples.weatherCall])])
       (CloudflareAI.chunkFrames unit Samples.stringify Samples.clock
          Samples.decodeBytes "@cf/meta/llama" true
          (CloudflareAI.CfObject unit (Some "calling")
             (Some [Samples.weatherCall; Samples.weatherCall]))
          Samples.adapterStart)
  /\ (CloudflareAI.carriesBoth unit
        (CloudflareAI.CfObject unit (Some "calling")
           (Some [Samples.weatherCall; Samples.weatherCall])) = true ->
      exists chunk converted,
        CloudflareAI.chunkFrames unit Samples.stringify Samples.clock
          Samples.decodeBytes "@cf/meta/llama" true
          (CloudflareAI.CfObject unit (Some "calling")
             (Some [Samples.weatherCall; Samples.weatherCall]))
          Samples.adapterStart
        = [ChunkFrame chunk]
        /\ delta_tool_calls (chunk_delta chunk) = Some converted
        /\ map Observations.toolCallPayload converted
           = map (Observations.upstreamPayload unit Samples.stringify)
                 (Observations.chunkToolCalls unit
                    (CloudflareAI.CfObject unit (Some "calling")
                       (Some [Samples.weatherCall; Samples.weatherCall])))
        /\ delta_content (chunk_delta chunk) = None
        /\ delta_role (chunk_delta chunk) = CloudflareAI.roleIfFirst true
        /\ chunk_model chunk = "@cf/meta/llama"
        /\ chunk_finish_reason chunk = None).
Proof.
  split; [reflexivity|].
  apply (chunk_forwarding unit Samples.stringify Samples.clock
           Samples.decodeBytes "@cf/meta/llama" true
           (CloudflareAI.CfObject unit (Some "calling")
              (Some [Samples.weatherCall; Samples.weatherCall]))
           Samples.adapterStart).
  reflexivity.
Defined.

(** C6, on an upstream whose second read is rejected: the chunk written
    for the first read is still in the stream. *)
Lemma stream_closed_after_fault_witness :
  exists body st',
    Samples.adapterChat (CloudflareAI.Stream unit Samples.brokenUpstream)
      Samples.streamRequest
    = (Normal
         {| success := true;
            response := None;
            stream_handle := Some (mkReadable body true);
            error := None;
            statusCode := None |}, st')
    /\ CloudflareAI.console st'
       = (CloudflareAI.console Samples.adapterStart
          ++ [ErrorLog "Stream error:"
                (Err (mkError "Error" "connection reset" None))])%list
    /\ CloudflareAI.contentChunks true body = true
    /\ forallb (fun f => negb (CloudflareAI.isTerminal f)
                         && negb (CloudflareAI.isDone f)) body = true
    /\ Forall2
         (Observations.forwards unit Samples.stringify Samples.decodeBytes
            "@cf/meta/llama")
         [CloudflareAI.CfString unit "Hi"] body.
Proof.
  apply (stream_closed_after_fault unit Samples.stringify tt Samples.clock
           Samples.decodeBytes
           (Samples.bindingOf (CloudflareAI.Stream unit Samples.brokenUpstream))
           Samples.failWith "@cf/meta/llama" Samples.streamRequest
           "unused-key"
           (fun _ _ => Normal (CloudflareAI.Stream unit Samples.brokenUpstream))
           Samples.brokenUpstream Samples.adapterStart);
    reflexivity.
Defined.
